(** * Item resource lifecycle: the four Lambda handlers and the load-item page handler

    A shallow embedding of [src/app.js]: the page's load-item handler
    (lines 1 and 24-41) and the four Lambda handlers CreateItem, ReadItem,
    UpdateItem and DeleteItem (lines 116-243).

    A handler is an [async] function: it may throw, read the clock, and
    await one call of the DynamoDB DocumentClient.  Handler bodies are
    terms of the type [Async]; [run] executes them against a [world] made
    of the table, the availability of the service and the clock.

    The table is [ItemsTable] with the partition key [ItemID] of type
    String (line 93) and no sort key.  The DocumentClient is modelled at
    the level of the keyed store: put, get, update and delete by key.  An update
    expression is read as a SET clause of plain attribute names and value
    placeholders, and refused, as DynamoDB refuses it, when it names an
    attribute by a reserved word.

    [JSON.parse] and [JSON.stringify] are built-ins: a request body is
    identified with the value its text denotes, or is not JSON at all, and
    a response body with the value that is serialised. *)

From Stdlib Require Import ZArith String Ascii List Lia.
From Stdlib Require Import Floats.SpecFloat.
From stdpp Require Import gmap strings.

#[local] Set Warnings "-register-all".
#[local] Open Scope string_scope.
#[local] Open Scope Z_scope.

(** ** JavaScript values *)

(** The values that travel through the handlers: what [JSON.parse] yields,
    what the SDK hands back, and [undefined].  Numbers are IEEE-754 doubles;
    objects are finite maps from property names to values. *)
Inductive value : Type :=
  | VUndefined
  | VNull
  | VBool (b : bool)
  | VNumber (n : spec_float)
  | VString (s : string)
  | VArray (l : list value)
  | VObject (o : gmap string value).

(** ToBoolean, the test behind [if (x)] and [!x]: [undefined], [null],
    [false], [+0], [-0], [NaN] and the empty string are falsy. *)
Definition ToBoolean (v : value) : bool :=
  match v with
  | VUndefined | VNull => false
  | VBool b => b
  | VNumber (S754_zero _) | VNumber S754_nan => false
  | VNumber _ => true
  | VString EmptyString => false
  | VString _ => true
  | VArray _ | VObject _ => true
  end.

(** Property read [v.k] on a value that is neither [undefined] nor [null].
    An object yields its own property or [undefined].  The names this program
    reads (ItemID, Name, Description, Item, Attributes, id, name, description)
    are neither own properties of strings, arrays, numbers and booleans nor
    inherited ones, so those yield [undefined]. *)
Definition Get (v : value) (k : string) : value :=
  match v with
  | VObject o => default VUndefined (o !! k)
  | _ => VUndefined
  end.

Inductive error : Type :=
  | SyntaxError
  | TypeError
  | AWSError (code : string).

(** How a promise settles. *)
Inductive settled (A : Type) : Type :=
  | fulfilled (a : A)
  | rejected (e : error).
Arguments fulfilled {A} a.
Arguments rejected {A} e.

(** ** Asynchronous handler bodies *)

(** The calls of [AWS.DynamoDB.DocumentClient] the handlers make; [params]
    is the JavaScript object they pass. *)
Inductive request : Type :=
  | dynamoDb_put (params : value)
  | dynamoDb_get (params : value)
  | dynamoDb_update (params : value)
  | dynamoDb_delete (params : value).

(** An [async] function body: it returns, throws, reads the clock with
    [new Date()], or awaits the promise of a DocumentClient call and goes on
    with however that promise settles. *)
Inductive Async (A : Type) : Type :=
  | Return (a : A)
  | Throw (e : error)
  | NewDate (k : Z -> Async A)
  | Await (r : request) (k : settled value -> Async A).
Arguments Return {A} a.
Arguments Throw {A} e.
Arguments NewDate {A} k.
Arguments Await {A} r k.

Fixpoint Async_bind {A B : Type} (f : A -> Async B) (p : Async A) : Async B :=
  match p with
  | Return a => f a
  | Throw e => Throw e
  | NewDate k => NewDate (fun t => Async_bind f (k t))
  | Await r k => Await r (fun s => Async_bind f (k s))
  end.

#[export] Instance Async_mret : MRet Async := @Return.
#[export] Instance Async_mbind : MBind Async := @Async_bind.

(** [try { body } catch (error) { handler }] *)
Fixpoint try_catch {A : Type} (body : Async A) (handler : error -> Async A)
  : Async A :=
  match body with
  | Return a => Return a
  | Throw e => handler e
  | NewDate k => NewDate (fun t => try_catch (k t) handler)
  | Await r k => Await r (fun s => try_catch (k s) handler)
  end.

(** [await dynamoDb.op(params).promise()]: the resolved value, or a throw of
    the rejection reason. *)
Definition await (r : request) : Async value :=
  Await r (fun s =>
    match s with
    | fulfilled v => Return v
    | rejected e => Throw e
    end).

(** Reading a property, or destructuring [const { k } = v]: a TypeError on
    [undefined] and [null]. *)
Definition member (v : value) (k : string) : Async value :=
  match v with
  | VUndefined | VNull => Throw TypeError
  | _ => Return (Get v k)
  end.

(** ** Request and response *)

(** [event.body] as [JSON.parse] sees it.  [JSON.parse] first converts its
    argument to a string, so a [null] body is the text of the JSON value
    [null] and an [undefined] body is the text "undefined", which is not
    JSON.  A body is identified with the value its text denotes. *)
Inductive body_text : Type :=
  | not_JSON
  | JSON_of (v : value).

Definition JSON_parse (b : body_text) : Async value :=
  match b with
  | not_JSON => Throw SyntaxError
  | JSON_of v => Return v
  end.

(** The Lambda proxy event: the fields the handlers read. *)
Record Event : Type := {
  event_body : body_text;
  pathParameters : value
}.

(** The handler's result.  [body] holds the value handed to
    [JSON.stringify]; the serialised text is identified with it. *)
Record response : Type := {
  statusCode : Z;
  body : value
}.

Definition message (s : string) : value := VObject {[ "message" := VString s ]}.
Definition error_body (s : string) : value := VObject {[ "error" := VString s ]}.

(** ** [new Date().toISOString()] *)

(** Time values are milliseconds since 1970-01-01T00:00:00Z.  The
    definitions follow the ECMAScript functions of the same names. *)
Module Date.

Definition msPerDay : Z := 86400000.
Definition msPerHour : Z := 3600000.
Definition msPerMinute : Z := 60000.
Definition msPerSecond : Z := 1000.

(** A time value a Date object can hold: at most 8.64e15 ms either side
    of the epoch. *)
Definition valid_time_value (t : Z) : bool := (-8640000000000000 <=? t) && (t <=? 8640000000000000).

Definition Day (t : Z) : Z := t / msPerDay.
Definition TimeWithinDay (t : Z) : Z := t mod msPerDay.

Definition IsLeapYear (y : Z) : bool :=
  if negb (y mod 4 =? 0) then false
  else if negb (y mod 100 =? 0) then true
  else (y mod 400 =? 0).

Definition DaysInYear (y : Z) : Z := if IsLeapYear y then 366 else 365.

Definition DayFromYear (y : Z) : Z :=
  365 * (y - 1970) + (y - 1969) / 4 - (y - 1901) / 100 + (y - 1601) / 400.

(** The largest [y] with [DayFromYear y <= Day t]: the estimate from the
    mean year length is off by at most one. *)
Definition YearFromDay (d : Z) : Z :=
  let y := 1970 + (d * 400) / 146097 in
  if d <? DayFromYear y then y - 1
  else if DayFromYear (y + 1) <=? d then y + 1
  else y.

Definition YearFromTime (t : Z) : Z := YearFromDay (Day t).
Definition InLeapYear (t : Z) : Z := if IsLeapYear (YearFromTime t) then 1 else 0.
Definition DayWithinYear (t : Z) : Z := Day t - DayFromYear (YearFromTime t).

(** Month number 0 (January) to 11 (December). *)
Definition MonthFromTime (t : Z) : Z :=
  let d := DayWithinYear t in
  let l := InLeapYear t in
  if d <? 31 then 0
  else if d <? 59 + l then 1
  else if d <? 90 + l then 2
  else if d <? 120 + l then 3
  else if d <? 151 + l then 4
  else if d <? 181 + l then 5
  else if d <? 212 + l then 6
  else if d <? 243 + l then 7
  else if d <? 273 + l then 8
  else if d <? 304 + l then 9
  else if d <? 334 + l then 10
  else 11.

(** Day of the month, 1 to 31. *)
Definition DateFromTime (t : Z) : Z :=
  let d := DayWithinYear t in
  let l := InLeapYear t in
  match MonthFromTime t with
  | 0 => d + 1
  | 1 => d - 30
  | 2 => d - 58 - l
  | 3 => d - 89 - l
  | 4 => d - 119 - l
  | 5 => d - 150 - l
  | 6 => d - 180 - l
  | 7 => d - 211 - l
  | 8 => d - 242 - l
  | 9 => d - 272 - l
  | 10 => d - 303 - l
  | _ => d - 333 - l
  end.

Definition HourFromTime (t : Z) : Z := (t / msPerHour) mod 24.
Definition MinFromTime (t : Z) : Z := (t / msPerMinute) mod 60.
Definition SecFromTime (t : Z) : Z := (t / msPerSecond) mod 60.
Definition msFromTime (t : Z) : Z := t mod msPerSecond.

Definition digit (d : Z) : ascii := ascii_of_N (48 + Z.to_N d).

(** The [n] lowest decimal digits of [x], most significant first. *)
Fixpoint digits (n : nat) (x : Z) : string :=
  match n with
  | O => EmptyString
  | S n' => String (digit ((x / 10 ^ Z.of_nat n') mod 10)) (digits n' x)
  end.

(** Four digits for the years 0 to 9999, otherwise a sign and six digits. *)
Definition year_string (y : Z) : string :=
  if (0 <=? y) && (y <=? 9999) then digits 4 y
  else String (if y <? 0 then "-"%char else "+"%char) (digits 6 (Z.abs y)).

(** [YYYY-MM-DDTHH:mm:ss.sssZ] *)
Definition toISOString (t : Z) : string :=
  year_string (YearFromTime t) +:+ "-" +:+ digits 2 (MonthFromTime t + 1)
    +:+ "-" +:+ digits 2 (DateFromTime t)
    +:+ "T" +:+ digits 2 (HourFromTime t)
    +:+ ":" +:+ digits 2 (MinFromTime t)
    +:+ ":" +:+ digits 2 (SecFromTime t)
    +:+ "." +:+ digits 3 (msFromTime t) +:+ "Z".

(** *** Recognising the ECMAScript date-time string format *)

Definition digit_value (c : ascii) : option Z :=
  let n := Z.of_N (N_of_ascii c) in
  if (48 <=? n) && (n <=? 57) then Some (n - 48) else None.

(** Reads exactly [n] decimal digits. *)
Fixpoint read_digits (n : nat) (acc : Z) (s : string) : option (Z * string) :=
  match n with
  | O => Some (acc, s)
  | S n' =>
      match s with
      | String c r =>
          match digit_value c with
          | Some d => read_digits n' (10 * acc + d) r
          | None => None
          end
      | EmptyString => None
      end
  end.

Definition expect (c : ascii) (s : string) : option string :=
  match s with
  | String c' r => if Ascii.eqb c c' then Some r else None
  | EmptyString => None
  end.

(** [YYYY], or the expanded [+YYYYYY] and [-YYYYYY]; [-000000] is not a
    year. *)
Definition read_year (s : string) : option (Z * string) :=
  match s with
  | String "+" r => read_digits 6 0 r
  | String "-" r =>
      match read_digits 6 0 r with
      | Some (y, r') => if y =? 0 then None else Some (- y, r')
      | None => None
      end
  | _ => read_digits 4 0 s
  end.

(** Days of month [m] (1 to 12) of year [y]. *)
Definition DaysInMonth (y m : Z) : Z :=
  match m with
  | 2 => if IsLeapYear y then 29 else 28
  | 4 | 6 | 9 | 11 => 30
  | _ => 31
  end.

Record fields : Type := {
  f_year : Z; f_month : Z; f_date : Z;
  f_hour : Z; f_min : Z; f_sec : Z; f_ms : Z
}.

Definition read_fields (s : string) : option fields :=
  '(y, s) ← read_year s;
  s ← expect "-" s;
  '(mo, s) ← read_digits 2 0 s;
  s ← expect "-" s;
  '(d, s) ← read_digits 2 0 s;
  s ← expect "T" s;
  '(h, s) ← read_digits 2 0 s;
  s ← expect ":" s;
  '(mi, s) ← read_digits 2 0 s;
  s ← expect ":" s;
  '(se, s) ← read_digits 2 0 s;
  s ← expect "." s;
  '(ms, s) ← read_digits 3 0 s;
  s ← expect "Z" s;
  match s with
  | EmptyString =>
      Some {| f_year := y; f_month := mo; f_date := d;
              f_hour := h; f_min := mi; f_sec := se; f_ms := ms |}
  | _ => None
  end.

Definition fields_in_range (f : fields) : bool :=
  (1 <=? f_month f) && (f_month f <=? 12)
  && (1 <=? f_date f) && (f_date f <=? DaysInMonth (f_year f) (f_month f))
  && (f_hour f <=? 23) && (f_min f <=? 59) && (f_sec f <=? 59).

(** A UTC timestamp in the ISO-8601 profile of ECMAScript, naming a day
    that exists. *)
Definition is_ISO_8601 (s : string) : bool :=
  match read_fields s with
  | Some f => fields_in_range f
  | None => false
  end.

(** Days from the epoch to the first day of month [m] (1 to 12) of year
    [y], and the time value a field list names. *)
Definition DayFromMonth (y m : Z) : Z :=
  let l := if IsLeapYear y then 1 else 0 in
  DayFromYear y +
  match m with
  | 1 => 0
  | 2 => 31
  | 3 => 59 + l
  | 4 => 90 + l
  | 5 => 120 + l
  | 6 => 151 + l
  | 7 => 181 + l
  | 8 => 212 + l
  | 9 => 243 + l
  | 10 => 273 + l
  | 11 => 304 + l
  | _ => 334 + l
  end.

Definition time_of_fields (f : fields) : Z :=
  (DayFromMonth (f_year f) (f_month f) + f_date f - 1) * msPerDay
  + f_hour f * msPerHour + f_min f * msPerMinute + f_sec f * msPerSecond
  + f_ms f.

(** [Date.parse] on the format above. *)
Definition parse (s : string) : option Z :=
  match read_fields s with
  | Some f => if fields_in_range f then Some (time_of_fields f) else None
  | None => None
  end.

End Date.

(** ** The table behind the DocumentClient *)

(** The state the handlers run against: the items of [ItemsTable] under
    their partition key, whether the service answers, and the clock
    [new Date()] reads.  An item is a finite map from attribute names to
    values. *)
Record world : Type := {
  table : gmap string (gmap string value);
  available : bool;
  clock : Z
}.

Definition set_table (t : gmap string (gmap string value)) (w : world) : world :=
  {| table := t; available := available w; clock := clock w |}.

Definition TableName_known (params : value) : bool :=
  match Get params "TableName" with
  | VString n => String.eqb n "ItemsTable"
  | _ => false
  end.

(** The partition key of an item or of a [Key] object: the attribute
    [ItemID], which must be a non-empty string. *)
Definition key_of (attrs : value) : option string :=
  match Get attrs "ItemID" with
  | VString EmptyString => None
  | VString k => Some k
  | _ => None
  end.

(** [undefined] is no attribute value: the DocumentClient leaves such
    attributes out of the item it sends. *)
Definition marshal (item : gmap string value) : gmap string value :=
  omap (fun v => match v with VUndefined => None | _ => Some v end) item.

(** *** Update expressions *)

Module UpdateExpression.

Inductive token : Type :=
  | Word (s : string)
  | Comma
  | Equals.

Definition is_space (c : ascii) : bool :=
  let n := N_of_ascii c in
  ((n =? 32) || (n =? 9) || (n =? 10) || (n =? 13))%N.

Definition is_letter (c : ascii) : bool :=
  let n := N_of_ascii c in
  (((65 <=? n) && (n <=? 90)) || ((97 <=? n) && (n <=? 122)))%N.

Definition is_digit (c : ascii) : bool :=
  let n := N_of_ascii c in ((48 <=? n) && (n <=? 57))%N.

Definition upper (c : ascii) : ascii :=
  let n := N_of_ascii c in
  if ((97 <=? n) && (n <=? 122))%N then ascii_of_N (n - 32) else c.

Fixpoint uppercase (s : string) : string :=
  match s with
  | EmptyString => EmptyString
  | String c r => String (upper c) (uppercase r)
  end.

(** The word read so far, if any, goes before the tokens that follow. *)
Definition flush (w : string) (ts : list token) : list token :=
  match w with
  | EmptyString => ts
  | _ => Word w :: ts
  end.

(** White space separates words; a comma and an equals sign are tokens of
    their own. *)
Fixpoint tokens (s : string) (w : string) : list token :=
  match s with
  | EmptyString => flush w []
  | String c r =>
      if is_space c then flush w (tokens r EmptyString)
      else if Ascii.eqb c "," then flush w (Comma :: tokens r EmptyString)
      else if Ascii.eqb c "=" then flush w (Equals :: tokens r EmptyString)
      else tokens r (w +:+ String c EmptyString)
  end.

(** [path = value] actions separated by commas. *)
Fixpoint actions (ts : list token) : option (list (string * string)) :=
  match ts with
  | Word a :: Equals :: Word v :: rest =>
      match rest with
      | [] => Some [(a, v)]
      | Comma :: rest' => cons (a, v) <$> actions rest'
      | _ => None
      end
  | _ => None
  end.

(** A SET clause: the attribute and the value of each action, in order. *)
Definition parse (e : string) : option (list (string * string)) :=
  match tokens e EmptyString with
  | Word k :: ts => if String.eqb (uppercase k) "SET" then actions ts else None
  | _ => None
  end.

(** An attribute name that may stand in an expression as it is: a letter,
    then letters, digits and underscores. *)
Definition is_plain_name (a : string) : bool :=
  match a with
  | EmptyString => false
  | String c r =>
      is_letter c
      && forallb (fun c' => is_letter c' || is_digit c' || Ascii.eqb c' "_")
           (list_ascii_of_string r)
  end.

(** [:name], the placeholder of a value. *)
Definition is_value_placeholder (v : string) : bool :=
  match v with
  | String ":" (String c r) =>
      forallb (fun c' => is_letter c' || is_digit c' || Ascii.eqb c' "_")
        (c :: list_ascii_of_string r)
  | _ => false
  end.

(** DynamoDB's reserved words.  An attribute of such a name can only be
    named through ExpressionAttributeNames. *)
Definition reserved_words : list string :=
  [
    "ABORT"; "ABSOLUTE"; "ACTION"; "ADD"; "AFTER"; "AGENT"; "AGGREGATE";
    "ALL"; "ALLOCATE"; "ALTER"; "ANALYZE"; "AND"; "ANY"; "ARCHIVE"; "ARE";
    "ARRAY"; "AS"; "ASC"; "ASCII"; "ASENSITIVE"; "ASSERTION"; "ASYMMETRIC";
    "AT"; "ATOMIC"; "ATTACH"; "ATTRIBUTE"; "AUTH"; "AUTHORIZATION";
    "AUTHORIZE"; "AUTO"; "AVG";
    "BACK"; "BACKUP"; "BASE"; "BATCH"; "BEFORE"; "BEGIN"; "BETWEEN";
    "BIGINT"; "BINARY"; "BIT"; "BLOB"; "BLOCK"; "BOOLEAN"; "BOTH"; "BREADTH";
    "BUCKET"; "BULK"; "BY"; "BYTE";
    "CALL"; "CALLED"; "CALLING"; "CAPACITY"; "CASCADE"; "CASCADED"; "CASE";
    "CAST"; "CATALOG"; "CHAR"; "CHARACTER"; "CHECK"; "CLASS"; "CLOB";
    "CLOSE"; "CLUSTER"; "CLUSTERED"; "CLUSTERING"; "CLUSTERS"; "COALESCE";
    "COLLATE"; "COLLATION"; "COLLECTION"; "COLUMN"; "COLUMNS"; "COMBINE";
    "COMMENT"; "COMMIT"; "COMPACT"; "COMPILE"; "COMPRESS"; "CONDITION";
    "CONFLICT"; "CONNECT"; "CONNECTION"; "CONSISTENCY"; "CONSISTENT";
    "CONSTRAINT"; "CONSTRAINTS"; "CONSTRUCTOR"; "CONSUMED"; "CONTINUE";
    "CONVERT"; "COPY"; "CORRESPONDING"; "COUNT"; "COUNTER"; "CREATE";
    "CROSS"; "CUBE"; "CURRENT"; "CURSOR"; "CYCLE";
    "DATA"; "DATABASE"; "DATE"; "DATETIME"; "DAY"; "DEALLOCATE"; "DEC";
    "DECIMAL"; "DECLARE"; "DEFAULT"; "DEFERRABLE"; "DEFERRED"; "DEFINE";
    "DEFINED"; "DEFINITION"; "DELETE"; "DELIMITED"; "DEPTH"; "DEREF"; "DESC";
    "DESCRIBE"; "DESCRIPTOR"; "DETACH"; "DETERMINISTIC"; "DIAGNOSTICS";
    "DIRECTORIES"; "DISABLE"; "DISCONNECT"; "DISTINCT"; "DISTRIBUTE"; "DO";
    "DOMAIN"; "DOUBLE"; "DROP"; "DUMP"; "DURATION"; "DYNAMIC";
    "EACH"; "ELEMENT"; "ELSE"; "ELSEIF"; "EMPTY"; "ENABLE"; "END"; "EQUAL";
    "EQUALS"; "ERROR"; "ESCAPE"; "ESCAPED"; "EVAL"; "EVALUATE"; "EXCEEDED";
    "EXCEPT"; "EXCEPTION"; "EXCEPTIONS"; "EXCLUSIVE"; "EXEC"; "EXECUTE";
    "EXISTS"; "EXIT"; "EXPLAIN"; "EXPLODE"; "EXPORT"; "EXPRESSION";
    "EXTENDED"; "EXTERNAL"; "EXTRACT";
    "FAIL"; "FALSE"; "FAMILY"; "FETCH"; "FIELDS"; "FILE"; "FILTER";
    "FILTERING"; "FINAL"; "FINISH"; "FIRST"; "FIXED"; "FLATTERN"; "FLOAT";
    "FOR"; "FORCE"; "FOREIGN"; "FORMAT"; "FORWARD"; "FOUND"; "FREE"; "FROM";
    "FULL"; "FUNCTION"; "FUNCTIONS";
    "GENERAL"; "GENERATE"; "GET"; "GLOB"; "GLOBAL"; "GO"; "GOTO"; "GRANT";
    "GREATER"; "GROUP"; "GROUPING";
    "HANDLER"; "HASH"; "HAVE"; "HAVING"; "HEAP"; "HIDDEN"; "HOLD"; "HOUR";
    "IDENTIFIED"; "IDENTITY"; "IF"; "IGNORE"; "IMMEDIATE"; "IMPORT"; "IN";
    "INCLUDING"; "INCLUSIVE"; "INCREMENT"; "INCREMENTAL"; "INDEX"; "INDEXED";
    "INDEXES"; "INDICATOR"; "INFINITE"; "INITIALLY"; "INLINE"; "INNER";
    "INNTER"; "INOUT"; "INPUT"; "INSENSITIVE"; "INSERT"; "INSTEAD"; "INT";
    "INTEGER"; "INTERSECT"; "INTERVAL"; "INTO"; "INVALIDATE"; "IS";
    "ISOLATION"; "ITEM"; "ITEMS"; "ITERATE";
    "JOIN";
    "KEY"; "KEYS";
    "LAG"; "LANGUAGE"; "LARGE"; "LAST"; "LATER"; "LATERAL"; "LEAD";
    "LEADING"; "LEAVE"; "LEFT"; "LENGTH"; "LESS"; "LEVEL"; "LIKE"; "LIMIT";
    "LIMITED"; "LINES"; "LIST"; "LOAD"; "LOCAL"; "LOCALTIME";
    "LOCALTIMESTAMP"; "LOCATION"; "LOCATOR"; "LOCK"; "LOCKS"; "LOG"; "LOGED";
    "LONG"; "LOOP"; "LOWER";
    "MAP"; "MATCH"; "MATERIALIZED"; "MAX"; "MAXLEN"; "MEMBER"; "MERGE";
    "METHOD"; "METRICS"; "MIN"; "MINUS"; "MINUTE"; "MISSING"; "MOD"; "MODE";
    "MODIFIES"; "MODIFY"; "MODULE"; "MONTH"; "MULTI"; "MULTISET";
    "NAME"; "NAMES"; "NATIONAL"; "NATURAL"; "NCHAR"; "NCLOB"; "NEW"; "NEXT";
    "NO"; "NONE"; "NOT"; "NULL"; "NULLIF"; "NUMBER"; "NUMERIC";
    "OBJECT"; "OF"; "OFFLINE"; "OFFSET"; "OLD"; "ON"; "ONLINE"; "ONLY";
    "OPAQUE"; "OPEN"; "OPERATOR"; "OPTION"; "OR"; "ORDER"; "ORDINALITY";
    "OTHER"; "OTHERS"; "OUT"; "OUTER"; "OUTPUT"; "OVER"; "OVERLAPS";
    "OVERRIDE"; "OWNER";
    "PAD"; "PARALLEL"; "PARAMETER"; "PARAMETERS"; "PARTIAL"; "PARTITION";
    "PARTITIONED"; "PARTITIONS"; "PATH"; "PERCENT"; "PERCENTILE";
    "PERMISSION"; "PERMISSIONS"; "PIPE"; "PIPELINED"; "PLAN"; "POOL";
    "POSITION"; "PRECISION"; "PREPARE"; "PRESERVE"; "PRIMARY"; "PRIOR";
    "PRIVATE"; "PRIVILEGES"; "PROCEDURE"; "PROCESSED"; "PROJECT";
    "PROJECTION"; "PROPERTY"; "PROVISIONING"; "PUBLIC"; "PUT";
    "QUERY"; "QUIT"; "QUORUM";
    "RAISE"; "RANDOM"; "RANGE"; "RANK"; "RAW"; "READ"; "READS"; "REAL";
    "REBUILD"; "RECORD"; "RECURSIVE"; "REDUCE"; "REF"; "REFERENCE";
    "REFERENCES"; "REFERENCING"; "REGEXP"; "REGION"; "REINDEX"; "RELATIVE";
    "RELEASE"; "REMAINDER"; "RENAME"; "REPEAT"; "REPLACE"; "REQUEST";
    "RESET"; "RESIGNAL"; "RESOURCE"; "RESPONSE"; "RESTORE"; "RESTRICT";
    "RESULT"; "RETURN"; "RETURNING"; "RETURNS"; "REVERSE"; "REVOKE"; "RIGHT";
    "ROLE"; "ROLES"; "ROLLBACK"; "ROLLUP"; "ROUTINE"; "ROW"; "ROWS"; "RULE";
    "RULES";
    "SAMPLE"; "SATISFIES"; "SAVE"; "SAVEPOINT"; "SCAN"; "SCHEMA"; "SCOPE";
    "SCROLL"; "SEARCH"; "SECOND"; "SECTION"; "SEGMENT"; "SEGMENTS"; "SELECT";
    "SELF"; "SEMI"; "SENSITIVE"; "SEPARATE"; "SEQUENCE"; "SERIALIZABLE";
    "SESSION"; "SET"; "SETS"; "SHARD"; "SHARE"; "SHARED"; "SHORT"; "SHOW";
    "SIGNAL"; "SIMILAR"; "SIZE"; "SKEWED"; "SMALLINT"; "SNAPSHOT"; "SOME";
    "SOURCE"; "SPACE"; "SPACES"; "SPARSE"; "SPECIFIC"; "SPECIFICTYPE";
    "SPLIT"; "SQL"; "SQLCODE"; "SQLERROR"; "SQLEXCEPTION"; "SQLSTATE";
    "SQLWARNING"; "START"; "STATE"; "STATIC"; "STATISTICS"; "STATUS"; "STORE";
    "STORED"; "STREAM"; "STRING"; "STRUCT"; "STYLE"; "SUB"; "SUBMULTISET";
    "SUBPARTITION"; "SUBSTRING"; "SUBTYPE"; "SUM"; "SUPER"; "SYMMETRIC";
    "SYNONYM"; "SYSTEM";
    "TABLE"; "TABLESAMPLE"; "TEMP"; "TEMPORARY"; "TERMINATED"; "TEXT";
    "THAN"; "THEN"; "THROUGHPUT"; "TIME"; "TIMESTAMP"; "TIMEZONE"; "TINYINT";
    "TO"; "TOKEN"; "TOTAL"; "TOUCH"; "TRAILING"; "TRANSACTION"; "TRANSFORM";
    "TRANSLATE"; "TRANSLATION"; "TREAT"; "TRIGGER"; "TRIM"; "TRUE";
    "TRUNCATE"; "TTL"; "TUPLE"; "TYPE";
    "UNDER"; "UNDO"; "UNION"; "UNIQUE"; "UNIT"; "UNKNOWN"; "UNLOGGED";
    "UNNEST"; "UNPROCESSED"; "UNSIGNED"; "UNTIL"; "UPDATE"; "UPPER"; "URL";
    "USAGE"; "USE"; "USER"; "USERS"; "USING"; "UUID";
    "VACUUM"; "VALUE"; "VALUED"; "VALUES"; "VARCHAR"; "VARIABLE"; "VARIANCE";
    "VARINT"; "VARYING"; "VIEW"; "VIEWS"; "VIRTUAL"; "VOID";
    "WAIT"; "WHEN"; "WHENEVER"; "WHERE"; "WHILE"; "WINDOW"; "WITH"; "WITHIN";
    "WITHOUT"; "WORK"; "WRAPPED"; "WRITE";
    "YEAR";
    "ZONE"
  ].

(** Reserved words are matched without regard to case. *)
Definition reserved (a : string) : bool :=
  existsb (String.eqb (uppercase a)) reserved_words.

End UpdateExpression.

(** The value an action sets: the action must name a plain attribute that
    is neither a reserved word nor the key, and its placeholder must have a
    value. *)
Definition action_value (values : value) (action : string * string)
  : option (string * value) :=
  if UpdateExpression.is_plain_name (fst action)
     && negb (UpdateExpression.reserved (fst action))
     && negb (String.eqb (fst action) "ItemID")
     && UpdateExpression.is_value_placeholder (snd action)
  then
    match Get values (snd action) with
    | VUndefined => None
    | v => Some (fst action, v)
    end
  else None.

(** The attributes an update sets, with their values; [None] when the
    request is refused: the expression is no SET clause, an action is not
    acceptable, two actions set one attribute, or the return mode is not
    ALL_NEW. *)
Definition set_actions (params : value) : option (list (string * value)) :=
  match Get params "UpdateExpression", Get params "ReturnValues" with
  | VString e, VString r =>
      if String.eqb r "ALL_NEW"
      then
        parsed ← UpdateExpression.parse e;
        sets ← mapM (action_value (Get params "ExpressionAttributeValues")) parsed;
        if bool_decide (NoDup sets.*1) then Some sets else None
      else None
  | _, _ => None
  end.

(** The item after the SET actions, the first applied first. *)
Definition apply_sets (sets : list (string * value)) (item : gmap string value)
  : gmap string value :=
  foldl (fun m set => <[fst set := snd set]> m) item sets.

Definition ValidationException : error := AWSError "ValidationException".

(** One call of the DocumentClient, after DynamoDB's API: PutItem replaces
    the item under the key, GetItem returns it when there is one,
    UpdateItem edits the item or adds one holding the key and the
    attributes set, DeleteItem removes it and succeeds also when there is
    none.  A call is rejected, and changes nothing, when the service does
    not answer, when the table is not [ItemsTable], when the key is
    missing, not a string, or empty, or when an update expression is
    refused. *)
Definition DocumentClient (r : request) (w : world) : settled value * world :=
  if negb (available w) then (rejected (AWSError "ServiceUnavailable"), w)
  else
    match r with
    | dynamoDb_put params =>
        match TableName_known params, Get params "Item" with
        | true, VObject item =>
            match key_of (VObject item) with
            | Some k =>
                (fulfilled (VObject ∅), set_table (<[k := marshal item]> (table w)) w)
            | None => (rejected ValidationException, w)
            end
        | _, _ => (rejected ValidationException, w)
        end
    | dynamoDb_get params =>
        match TableName_known params, key_of (Get params "Key") with
        | true, Some k =>
            match table w !! k with
            | Some item => (fulfilled (VObject {[ "Item" := VObject item ]}), w)
            | None => (fulfilled (VObject ∅), w)
            end
        | _, _ => (rejected ValidationException, w)
        end
    | dynamoDb_update params =>
        match TableName_known params, key_of (Get params "Key"), set_actions params with
        | true, Some k, Some sets =>
            let old := default {[ "ItemID" := VString k ]} (table w !! k) in
            let new := apply_sets sets old in
            (fulfilled (VObject {[ "Attributes" := VObject new ]}),
             set_table (<[k := new]> (table w)) w)
        | _, _, _ => (rejected ValidationException, w)
        end
    | dynamoDb_delete params =>
        match TableName_known params, key_of (Get params "Key") with
        | true, Some k => (fulfilled (VObject ∅), set_table (delete k (table w)) w)
        | _, _ => (rejected ValidationException, w)
        end
    end.

(** Running a handler body to the settlement of its promise. *)
Fixpoint run {A : Type} (p : Async A) (w : world) : settled A * world :=
  match p with
  | Return a => (fulfilled a, w)
  | Throw e => (rejected e, w)
  | NewDate k => run (k (clock w)) w
  | Await r k => let '(s, w') := DocumentClient r w in run (k s) w'
  end.

(** The DocumentClient calls a run issues, in order. *)
Fixpoint requests {A : Type} (p : Async A) (w : world) : list request :=
  match p with
  | Return _ | Throw _ => []
  | NewDate k => requests (k (clock w)) w
  | Await r k => let '(s, w') := DocumentClient r w in r :: requests (k s) w'
  end.

(** ** The Lambda handlers (src/app.js, lines 116-243) *)

(** Destructuring [const { ... } = v] throws on [undefined] and [null]. *)
Definition RequireObjectCoercible (v : value) : Async value :=
  match v with
  | VUndefined | VNull => Throw TypeError
  | _ => Return v
  end.

Definition new_Date : Async Z := NewDate Return.

Definition CreateItem (event : Event) : Async response :=
  parsed ← JSON_parse (event_body event);
  o ← RequireObjectCoercible parsed;
  let ItemID := Get o "ItemID" in
  let Name := Get o "Name" in
  let Description := Get o "Description" in
  now ← new_Date;
  let timestamp := Date.toISOString now in
  let params :=
    VObject {[ "TableName" := VString "ItemsTable";
               "Item" := VObject {[ "ItemID" := ItemID;
                                    "Name" := Name;
                                    "Description" := Description;
                                    "CreatedAt" := VString timestamp ]} ]} in
  try_catch
    (_ ← await (dynamoDb_put params);
     mret {| statusCode := 201; body := message "Item created successfully" |})
    (fun error =>
     mret {| statusCode := 500; body := error_body "Could not create item" |}).

Definition ReadItem (event : Event) : Async response :=
  o ← RequireObjectCoercible (pathParameters event);
  let ItemID := Get o "ItemID" in
  let params :=
    VObject {[ "TableName" := VString "ItemsTable";
               "Key" := VObject {[ "ItemID" := ItemID ]} ]} in
  try_catch
    (result ← await (dynamoDb_get params);
     Item ← member result "Item";
     if negb (ToBoolean Item)
     then mret {| statusCode := 404; body := message "Item not found" |}
     else mret {| statusCode := 200; body := Item |})
    (fun error =>
     mret {| statusCode := 500; body := error_body "Could not retrieve item" |}).

Definition UpdateItem (event : Event) : Async response :=
  o ← RequireObjectCoercible (pathParameters event);
  let ItemID := Get o "ItemID" in
  parsed ← JSON_parse (event_body event);
  b ← RequireObjectCoercible parsed;
  let Name := Get b "Name" in
  let Description := Get b "Description" in
  let params :=
    VObject {[ "TableName" := VString "ItemsTable";
               "Key" := VObject {[ "ItemID" := ItemID ]};
               "UpdateExpression" :=
                 VString "set Name = :name, Description = :description";
               "ExpressionAttributeValues" :=
                 VObject {[ ":name" := Name; ":description" := Description ]};
               "ReturnValues" := VString "ALL_NEW" ]} in
  try_catch
    (result ← await (dynamoDb_update params);
     Attributes ← member result "Attributes";
     mret {| statusCode := 200; body := Attributes |})
    (fun error =>
     mret {| statusCode := 500; body := error_body "Could not update item" |}).

Definition DeleteItem (event : Event) : Async response :=
  o ← RequireObjectCoercible (pathParameters event);
  let ItemID := Get o "ItemID" in
  let params :=
    VObject {[ "TableName" := VString "ItemsTable";
               "Key" := VObject {[ "ItemID" := ItemID ]} ]} in
  try_catch
    (_ ← await (dynamoDb_delete params);
     mret {| statusCode := 200; body := message "Item deleted successfully" |})
    (fun error =>
     mret {| statusCode := 500; body := error_body "Could not delete item" |}).

(** ** The page's load-item handler (src/app.js, lines 1 and 24-41) *)

Module FrontEnd.

Definition apiBaseUrl : string :=
  "https://<api-id>.execute-api.<region>.amazonaws.com/prod/items".

(** A template literal after evaluation: its fixed text and the values
    substituted for [${...}]. *)
Inductive piece : Type :=
  | Text (s : string)
  | Subst (v : value).

Definition nl : string := String (ascii_of_nat 10) EmptyString.

Definition item_markup (data : value) : list piece :=
  [ Text (nl +:+ "        <strong>ID:</strong> "); Subst (Get data "id");
    Text ("<br>" +:+ nl +:+ "        <strong>Name:</strong> "); Subst (Get data "name");
    Text ("<br>" +:+ nl +:+ "        <strong>Description:</strong> ");
    Subst (Get data "description");
    Text (nl +:+ "      ") ].

Definition not_found_markup : list piece := [ Text "Item not found" ].

(** The click handler.  [itemId] is what [prompt] returned ([None] for
    [null]); [fetch_json url] is how [fetch(url)] followed by
    [response.json()] settles.  The result is the markup assigned to
    [innerHTML] of the output element, [None] when nothing is assigned. *)
Definition load_item (itemId : option string) (fetch_json : string -> settled value)
  : settled (option (list piece)) :=
  match itemId with
  | None | Some EmptyString => fulfilled None
  | Some id =>
      match fetch_json (apiBaseUrl +:+ "/" +:+ id) with
      | rejected e => rejected e
      | fulfilled data =>
          match data with
          | VUndefined | VNull => rejected TypeError
          | _ =>
              if ToBoolean (Get data "name")
              then fulfilled (Some (item_markup data))
              else fulfilled (Some not_found_markup)
          end
      end
  end.

End FrontEnd.

(** ** Names for the pieces of the handlers *)

(** The item [CreateItem] puts for the parsed body [b] at time [now]. *)
Definition created_Item (b : value) (now : Z) : gmap string value :=
  {[ "ItemID" := Get b "ItemID"; "Name" := Get b "Name";
     "Description" := Get b "Description";
     "CreatedAt" := VString (Date.toISOString now) ]}.

Definition put_params (b : value) (now : Z) : value :=
  VObject {[ "TableName" := VString "ItemsTable"; "Item" := VObject (created_Item b now) ]}.

Definition Key_params (p : value) : value :=
  VObject {[ "TableName" := VString "ItemsTable";
             "Key" := VObject {[ "ItemID" := Get p "ItemID" ]} ]}.

Definition update_params (p b : value) : value :=
  VObject {[ "TableName" := VString "ItemsTable";
             "Key" := VObject {[ "ItemID" := Get p "ItemID" ]};
             "UpdateExpression" := VString "set Name = :name, Description = :description";
             "ExpressionAttributeValues" :=
               VObject {[ ":name" := Get b "Name"; ":description" := Get b "Description" ]};
             "ReturnValues" := VString "ALL_NEW" ]}.

(** A response, and the response a handler makes of a settled call. *)
Definition respond (statusCode : Z) (body : value) : response :=
  {| statusCode := statusCode; body := body |}.

Definition settle (ok fail : response) (s : settled value) : settled response :=
  match s with
  | fulfilled _ => fulfilled ok
  | rejected _ => fulfilled fail
  end.

(** ** The concrete scenario: item 42 *)

Definition world0 : world :=
  {| table := ∅; available := true; clock := 1700000000000 |}.

Definition Widget : gmap string value :=
  {[ "ItemID" := VString "42"; "Name" := VString "Widget";
     "Description" := VString "A widget" ]}.

Definition Widget2 : gmap string value :=
  {[ "Name" := VString "Widget2"; "Description" := VString "Updated" ]}.

Definition path42 : gmap string value := {[ "ItemID" := VString "42" ]}.

Definition create42 : Event :=
  {| event_body := JSON_of (VObject Widget); pathParameters := VNull |}.
Definition read42 : Event :=
  {| event_body := JSON_of VNull; pathParameters := VObject path42 |}.
Definition update42 : Event :=
  {| event_body := JSON_of (VObject Widget2); pathParameters := VObject path42 |}.
Definition delete42 : Event := read42.

(** A world in which item 42 is stored. *)
Definition world42 : world := snd (run (CreateItem create42) world0).

(** A second item, and the store that holds both. *)
Definition Gadget : gmap string value :=
  {[ "ItemID" := VString "43"; "Name" := VString "Gadget";
     "Description" := VString "A gadget" ]}.

Definition create43 : Event :=
  {| event_body := JSON_of (VObject Gadget); pathParameters := VNull |}.

Definition world42_43 : world := snd (run (CreateItem create43) world42).

(** What the page receives for an item stored with an empty name. *)
Definition unnamed42 : gmap string value :=
  {[ "id" := VString "42"; "name" := VString ""; "description" := VString "A widget" ]}.

(** The same store at a later time. *)
Definition world42_later : world :=
  {| table := table world42; available := true; clock := 1800000000000 |}.

(** ** The page's form handlers (src/app.js, lines 3-21 and 43-75) *)

Module Forms.

(** The second argument of [fetch].  [init_body] holds the value handed to
    [JSON.stringify], [None] when the call gives no body. *)
Record RequestInit : Type := {
  method : string;
  headers : list (string * string);
  init_body : option value
}.

(** [const data = await response.json(); alert(data.message)]: the value
    [alert] is called with; the handler's promise is rejected when the fetch
    or the parse is, or when [data] has no properties to read. *)
Definition alert_message (json : settled value) : settled value :=
  match json with
  | rejected e => rejected e
  | fulfilled data =>
      match data with
      | VUndefined | VNull => rejected TypeError
      | _ => fulfilled (Get data "message")
      end
  end.

(** Submit of the create form; [id], [name] and [description] are the
    values of the three inputs, [fetch_json url init] is how [fetch(url,
    init)] followed by [response.json()] settles. *)
Definition create_item_submit (id name description : string)
    (fetch_json : string -> RequestInit -> settled value) : settled value :=
  alert_message
    (fetch_json FrontEnd.apiBaseUrl
       {| method := "POST";
          headers := [("Content-Type", "application/json")];
          init_body := Some (VObject {[ "id" := VString id;
                                        "name" := VString name;
                                        "description" := VString description ]}) |}).

Definition update_item_submit (id name description : string)
    (fetch_json : string -> RequestInit -> settled value) : settled value :=
  alert_message
    (fetch_json (FrontEnd.apiBaseUrl +:+ "/" +:+ id)
       {| method := "PUT";
          headers := [("Content-Type", "application/json")];
          init_body := Some (VObject {[ "name" := VString name;
                                        "description" := VString description ]}) |}).

Definition delete_item_submit (id : string)
    (fetch_json : string -> RequestInit -> settled value) : settled value :=
  alert_message
    (fetch_json (FrontEnd.apiBaseUrl +:+ "/" +:+ id)
       {| method := "DELETE"; headers := []; init_body := None |}).

End Forms.

(** ** The client of the guide (src/app.js, lines 284-297) *)

Module Guide.

(** What the user gets to see: an alert, or a line on the console. *)
Inductive shown : Type :=
  | alert (v : value)
  | console_error (label : string) (e : error).

Definition createItem_body : gmap string value :=
  {[ "ItemID" := VString "123"; "Name" := VString "Sample Item";
     "Description" := VString "This is a sample item" ]}.

(** [fetch(...).then(response => response.json()).then(data =>
    alert(data.message)).catch(error => console.error('Error:', error))] *)
Definition createItem (fetch_json : string -> Forms.RequestInit -> settled value) : shown :=
  match
    Forms.alert_message
      (fetch_json "https://your-api-id.execute-api.us-east-1.amazonaws.com/dev/create"
         {| Forms.method := "POST";
            Forms.init_body := Some (VObject createItem_body);
            Forms.headers := [("Content-Type", "application/json")] |})
  with
  | fulfilled v => alert v
  | rejected e => console_error "Error:" e
  end.

End Guide.

(** ** Invocations over time *)

Inductive invocation : Type :=
  | invoke_CreateItem (event : Event)
  | invoke_ReadItem (event : Event)
  | invoke_UpdateItem (event : Event)
  | invoke_DeleteItem (event : Event).

Definition handler (i : invocation) : Async response :=
  match i with
  | invoke_CreateItem event => CreateItem event
  | invoke_ReadItem event => ReadItem event
  | invoke_UpdateItem event => UpdateItem event
  | invoke_DeleteItem event => DeleteItem event
  end.

(** One invocation, with the clock and the state of the service it meets. *)
Record occasion : Type := {
  at_time : Z;
  service_up : bool;
  what : invocation
}.

(** The table after a sequence of invocations, oldest first. *)
Fixpoint replay (h : list occasion) (t : gmap string (gmap string value))
  : gmap string (gmap string value) :=
  match h with
  | [] => t
  | o :: h' =>
      replay h'
        (table (snd (run (handler (what o))
                       {| table := t; available := service_up o; clock := at_time o |})))
  end.

(** The shape of every item the handlers store: under a non-empty key, with
    that key as its ItemID, and with no attribute besides ItemID, Name,
    Description and CreatedAt. *)
Definition item_ok (k : string) (item : gmap string value) : Prop :=
  k <> "" /\ item !! "ItemID" = Some (VString k)
  /\ forall (a : string) (v : value), item !! a = Some v ->
       v <> VUndefined
       /\ (a = "ItemID" \/ a = "Name" \/ a = "Description" \/ a = "CreatedAt").

Definition table_ok (t : gmap string (gmap string value)) : Prop :=
  forall (k : string) (item : gmap string value), t !! k = Some item -> item_ok k item.

(** ** A handler seen from outside: the call it issues and the answer it gives *)

Definition is_coercible (v : value) : bool :=
  match v with
  | VUndefined | VNull => false
  | _ => true
  end.

Definition coercible (v : value) : Prop := v <> VUndefined /\ v <> VNull.

(** The one call an invocation issues at time [now]; [None] when the handler
    throws on its input before it gets there. *)
Definition call_issued (i : invocation) (now : Z) : option request :=
  match i with
  | invoke_CreateItem event =>
      match event_body event with
      | JSON_of b => if is_coercible b then Some (dynamoDb_put (put_params b now)) else None
      | not_JSON => None
      end
  | invoke_ReadItem event =>
      if is_coercible (pathParameters event)
      then Some (dynamoDb_get (Key_params (pathParameters event)))
      else None
  | invoke_UpdateItem event =>
      match event_body event with
      | JSON_of b =>
          if is_coercible (pathParameters event) && is_coercible b
          then Some (dynamoDb_update (update_params (pathParameters event) b))
          else None
      | not_JSON => None
      end
  | invoke_DeleteItem event =>
      if is_coercible (pathParameters event)
      then Some (dynamoDb_delete (Key_params (pathParameters event)))
      else None
  end.

(** The text of each handler's failure response. *)
Definition failure_text (i : invocation) : string :=
  match i with
  | invoke_CreateItem _ => "Could not create item"
  | invoke_ReadItem _ => "Could not retrieve item"
  | invoke_UpdateItem _ => "Could not update item"
  | invoke_DeleteItem _ => "Could not delete item"
  end.

(** The response a handler gives for the way its call settled. *)
Definition answer (i : invocation) (s : settled value) : response :=
  match s with
  | rejected _ => respond 500 (error_body (failure_text i))
  | fulfilled result =>
      match i with
      | invoke_CreateItem _ => respond 201 (message "Item created successfully")
      | invoke_ReadItem _ =>
          match result with
          | VUndefined | VNull => respond 500 (error_body (failure_text i))
          | _ =>
              if ToBoolean (Get result "Item")
              then respond 200 (Get result "Item")
              else respond 404 (message "Item not found")
          end
      | invoke_UpdateItem _ =>
          match result with
          | VUndefined | VNull => respond 500 (error_body (failure_text i))
          | _ => respond 200 (Get result "Attributes")
          end
      | invoke_DeleteItem _ => respond 200 (message "Item deleted successfully")
      end
  end.

(** The status codes each handler has in its source. *)
Definition statuses (i : invocation) : list Z :=
  match i with
  | invoke_CreateItem _ => [201; 500]
  | invoke_ReadItem _ => [200; 404; 500]
  | invoke_UpdateItem _ => [200; 500]
  | invoke_DeleteItem _ => [200; 500]
  end.

(** The key an invocation names: the ItemID of the parsed body for Create,
    of the path parameters for the others. *)
Definition target_key (i : invocation) : option string :=
  match i with
  | invoke_CreateItem event =>
      match event_body event with
      | JSON_of b => key_of b
      | not_JSON => None
      end
  | invoke_ReadItem event | invoke_UpdateItem event | invoke_DeleteItem event =>
      key_of (pathParameters event)
  end.

(** ** Comparing timestamps *)

(** Lexicographic combination of two comparisons. *)
Definition lex (c1 c2 : comparison) : comparison :=
  match c1 with
  | Eq => c2
  | _ => c1
  end.

(** The time values of the years 0000 to 9999. *)
Definition four_digit_year (t : Z) : bool :=
  (-62167219200000 <=? t) && (t <=? 253402300799999).

(** * Facts *)

(** ** The timestamp *)

Module DateFacts.
Import Date.

Ltac div_lia := Z.div_mod_to_equations; lia.

Lemma digit_cases (d : Z) :
  0 <= d <= 9 ->
  d = 0 \/ d = 1 \/ d = 2 \/ d = 3 \/ d = 4 \/ d = 5 \/ d = 6 \/ d = 7 \/ d = 8 \/ d = 9.
Proof. lia. Qed.

Lemma digit_value_digit (d : Z) : 0 <= d <= 9 -> digit_value (digit d) = Some d.
Proof.
  intros H. destruct (digit_cases d H) as [-> | [-> | [-> | [-> | [-> | [-> | [-> | [-> | [-> | ->]]]]]]]]];
    reflexivity.
Qed.

Lemma append_cons (c : ascii) (s r : string) : String c s +:+ r = String c (s +:+ r).
Proof. reflexivity. Qed.

Lemma append_nil (r : string) : "" +:+ r = r.
Proof. reflexivity. Qed.

Lemma read_digits_digits (n : nat) (x acc : Z) (rest : string) :
  0 <= x ->
  read_digits n acc (digits n x +:+ rest)
  = Some (acc * 10 ^ Z.of_nat n + x mod 10 ^ Z.of_nat n, rest).
Proof.
  intros Hx. revert acc. induction n as [| n IH]; intros acc.
  - cbn. rewrite Z.mod_1_r. do 2 f_equal. lia.
  - cbn [digits]. rewrite append_cons. cbn [read_digits].
    rewrite digit_value_digit by (pose proof (Z.mod_pos_bound (x / 10 ^ Z.of_nat n) 10); lia).
    rewrite IH. do 2 f_equal.
    rewrite Nat2Z.inj_succ, Z.pow_succ_r by lia.
    assert (0 < 10 ^ Z.of_nat n) by (apply Z.pow_pos_nonneg; lia).
    replace (x mod (10 * 10 ^ Z.of_nat n)) with (x mod (10 ^ Z.of_nat n * 10))
      by (f_equal; ring).
    rewrite Z.rem_mul_r by lia. ring.
Qed.

Lemma read_digits_small (n : nat) (x : Z) (rest : string) :
  0 <= x < 10 ^ Z.of_nat n ->
  read_digits n 0 (digits n x +:+ rest) = Some (x, rest).
Proof.
  intros H. rewrite read_digits_digits by lia.
  rewrite Z.mod_small by lia. reflexivity.
Qed.

Lemma expect_head (c : ascii) (rest : string) : expect c (String c rest) = Some rest.
Proof. cbn. rewrite Ascii.eqb_refl. reflexivity. Qed.

Lemma DayFromYear_succ (y : Z) : DayFromYear (y + 1) = DayFromYear y + DaysInYear y.
Proof.
  unfold DayFromYear, DaysInYear, IsLeapYear.
  destruct (Z.eqb_spec (y mod 4) 0), (Z.eqb_spec (y mod 100) 0),
    (Z.eqb_spec (y mod 400) 0); cbn [negb]; div_lia.
Qed.

Lemma year_estimate (d : Z) :
  let y := 1970 + d * 400 / 146097 in
  DayFromYear (y - 1) <= d < DayFromYear (y + 2).
Proof.
  cbv zeta. unfold DayFromYear.
  set (e := d * 400 / 146097).
  assert (146097 * e <= d * 400 < 146097 * e + 146097) by (subst e; div_lia).
  clearbody e. div_lia.
Qed.

(** [YearFromDay d] is the year whose days include day number [d]. *)
Lemma YearFromDay_spec (d : Z) :
  DayFromYear (YearFromDay d) <= d < DayFromYear (YearFromDay d + 1).
Proof.
  pose proof (year_estimate d) as H. cbv zeta in H.
  unfold YearFromDay. set (y := 1970 + d * 400 / 146097) in *.
  destruct (Z.ltb_spec d (DayFromYear y)) as [Hlt | Hge].
  - replace (y - 1 + 1) with y by lia. lia.
  - destruct (Z.leb_spec (DayFromYear (y + 1)) d) as [Hle | Hgt].
    + replace (y + 1 + 1) with (y + 2) by lia. lia.
    + lia.
Qed.

Lemma DayFromYear_mono (a b : Z) : a <= b -> DayFromYear a <= DayFromYear b.
Proof. intros H. unfold DayFromYear. div_lia. Qed.

(** It is the largest such year, as ECMAScript defines YearFromTime. *)
Lemma YearFromDay_largest (d y : Z) : DayFromYear y <= d -> y <= YearFromDay d.
Proof.
  intros H. pose proof (YearFromDay_spec d) as [_ Hlt].
  destruct (Z.le_gt_cases y (YearFromDay d)) as [Hle | Hgt]; [exact Hle |].
  pose proof (DayFromYear_mono (YearFromDay d + 1) y ltac:(lia)). lia.
Qed.

Lemma DayWithinYear_range (t : Z) :
  0 <= DayWithinYear t < DaysInYear (YearFromTime t).
Proof.
  unfold DayWithinYear, YearFromTime.
  pose proof (YearFromDay_spec (Day t)) as H.
  rewrite DayFromYear_succ in H. lia.
Qed.

Lemma month_date_range (t : Z) :
  0 <= MonthFromTime t <= 11
  /\ 1 <= DateFromTime t <= DaysInMonth (YearFromTime t) (MonthFromTime t + 1)
  /\ DayFromMonth (YearFromTime t) (MonthFromTime t + 1) + DateFromTime t - 1 = Day t.
Proof.
  pose proof (DayWithinYear_range t) as H.
  assert (Day t = DayFromYear (YearFromTime t) + DayWithinYear t) as ->
    by (unfold DayWithinYear; lia).
  unfold DateFromTime, MonthFromTime, InLeapYear, DaysInMonth, DayFromMonth, DaysInYear in *.
  set (d := DayWithinYear t) in *. clearbody d.
  set (y := YearFromTime t) in *. clearbody y.
  destruct (IsLeapYear y);
    repeat (match goal with
            | |- context [if ?a <? ?b then _ else _] => destruct (Z.ltb_spec a b)
            end; simpl; try lia).
Qed.

Lemma time_fields_range (t : Z) :
  0 <= HourFromTime t <= 23 /\ 0 <= MinFromTime t <= 59
  /\ 0 <= SecFromTime t <= 59 /\ 0 <= msFromTime t <= 999
  /\ HourFromTime t * msPerHour + MinFromTime t * msPerMinute
     + SecFromTime t * msPerSecond + msFromTime t = TimeWithinDay t.
Proof.
  unfold HourFromTime, MinFromTime, SecFromTime, msFromTime, TimeWithinDay,
    msPerHour, msPerMinute, msPerSecond, msPerDay.
  div_lia.
Qed.

Lemma valid_time_value_year (t : Z) :
  valid_time_value t = true -> -999999 <= YearFromTime t <= 999999.
Proof.
  unfold valid_time_value. intros H. apply andb_prop in H as [H1 H2].
  apply Z.leb_le in H1, H2.
  unfold YearFromTime, YearFromDay, Day, msPerDay.
  set (d := t / 86400000).
  assert (-100000000 <= d <= 100000000) by (subst d; div_lia).
  set (y := 1970 + d * 400 / 146097).
  assert (-300000 <= y <= 300000) by (subst y; div_lia).
  destruct (d <? DayFromYear y); [lia |].
  destruct (DayFromYear (y + 1) <=? d); lia.
Qed.

Lemma read_year_digit (k : Z) (r : string) :
  0 <= k <= 9 -> read_year (String (digit k) r) = read_digits 4 0 (String (digit k) r).
Proof.
  intros H. destruct (digit_cases k H) as [-> | [-> | [-> | [-> | [-> | [-> | [-> | [-> | [-> | ->]]]]]]]]];
    reflexivity.
Qed.

Lemma read_year_year_string (y : Z) (rest : string) :
  -999999 <= y <= 999999 ->
  read_year (year_string y +:+ rest) = Some (y, rest).
Proof.
  intros H. unfold year_string.
  destruct (Z.leb_spec 0 y) as [H0 | H0]; cbn [andb].
  - destruct (Z.leb_spec y 9999) as [H1 | H1].
    + change (digits 4 y) with (String (digit ((y / 10 ^ 3) mod 10)) (digits 3 y)).
      rewrite append_cons, read_year_digit
        by (pose proof (Z.mod_pos_bound (y / 10 ^ 3) 10); lia).
      rewrite <- append_cons.
      change (String (digit ((y / 10 ^ 3) mod 10)) (digits 3 y)) with (digits 4 y).
      apply read_digits_small. cbn. lia.
    + destruct (Z.ltb_spec y 0); [lia |].
      rewrite append_cons. cbn [read_year].
      rewrite Z.abs_eq by lia. apply read_digits_small. cbn. lia.
  - destruct (Z.ltb_spec y 0); [| lia].
    rewrite append_cons. cbn [read_year].
    rewrite read_digits_small by (cbn; lia).
    destruct (Z.eqb_spec (Z.abs y) 0); [lia |].
    do 2 f_equal. lia.
Qed.

(** The fields [toISOString] prints are the ones read back. *)
Lemma read_fields_toISOString (t : Z) :
  valid_time_value t = true ->
  read_fields (toISOString t)
  = Some {| f_year := YearFromTime t; f_month := MonthFromTime t + 1;
            f_date := DateFromTime t; f_hour := HourFromTime t;
            f_min := MinFromTime t; f_sec := SecFromTime t;
            f_ms := msFromTime t |}.
Proof.
  intros Ht.
  pose proof (valid_time_value_year t Ht) as Hy.
  pose proof (month_date_range t) as (Hm & Hd & _).
  pose proof (time_fields_range t) as (Hh & Hmi & Hs & Hms & _).
  assert (DaysInMonth (YearFromTime t) (MonthFromTime t + 1) <= 31) as Hdm.
  { unfold DaysInMonth. destruct (IsLeapYear (YearFromTime t));
      repeat (match goal with |- context [match ?x with _ => _ end] => destruct x end; try lia). }
  unfold toISOString, read_fields.
  rewrite read_year_year_string by exact Hy. cbn [mbind option_bind].
  repeat (rewrite ?append_cons, ?append_nil;
          first [ rewrite expect_head | rewrite read_digits_small by (cbn; lia) ];
          cbn [mbind option_bind]).
  reflexivity.
Qed.

Lemma fields_in_range_toISOString (t : Z) :
  fields_in_range
    {| f_year := YearFromTime t; f_month := MonthFromTime t + 1;
       f_date := DateFromTime t; f_hour := HourFromTime t;
       f_min := MinFromTime t; f_sec := SecFromTime t;
       f_ms := msFromTime t |} = true.
Proof.
  pose proof (month_date_range t) as (Hm & Hd & _).
  pose proof (time_fields_range t) as (Hh & Hmi & Hs & Hms & _).
  unfold fields_in_range. cbn [f_year f_month f_date f_hour f_min f_sec f_ms].
  repeat (apply andb_true_intro; split); apply Z.leb_le; lia.
Qed.

(** The timestamp [toISOString] prints is well formed. *)
Lemma toISOString_is_ISO_8601 (t : Z) :
  valid_time_value t = true -> is_ISO_8601 (toISOString t) = true.
Proof.
  intros Ht. unfold is_ISO_8601.
  rewrite read_fields_toISOString by exact Ht.
  apply fields_in_range_toISOString.
Qed.

(** The timestamp names the instant it was printed from. *)
Lemma parse_toISOString (t : Z) :
  valid_time_value t = true -> parse (toISOString t) = Some t.
Proof.
  intros Ht. unfold parse.
  rewrite read_fields_toISOString by exact Ht.
  rewrite fields_in_range_toISOString. f_equal.
  unfold time_of_fields. cbn [f_year f_month f_date f_hour f_min f_sec f_ms].
  pose proof (month_date_range t) as (_ & _ & Hday).
  pose proof (time_fields_range t) as (_ & _ & _ & _ & Htime).
  rewrite Hday. unfold Day, TimeWithinDay, msPerDay in *. div_lia.
Qed.

End DateFacts.

(** ** Facts about the table and the runs of the handlers *)

Ltac lookup_literal :=
  repeat first
    [ rewrite lookup_insert_eq
    | rewrite lookup_insert_ne by discriminate
    | rewrite lookup_singleton_eq
    | rewrite lookup_singleton_ne by discriminate
    | rewrite lookup_empty ];
  cbn [default from_option id].

Lemma key_of_Key (v : value) :
  key_of (VObject {[ "ItemID" := Get v "ItemID" ]}) = key_of v.
Proof. unfold key_of. cbn [Get]. lookup_literal. reflexivity. Qed.

Lemma key_of_lookup (o : gmap string value) (id : string) :
  o !! "ItemID" = Some (VString id) -> id <> "" -> key_of (VObject o) = Some id.
Proof.
  intros H Hne. unfold key_of. cbn [Get]. rewrite H. cbn.
  destruct id; congruence.
Qed.

Lemma key_of_missing (o : gmap string value) :
  o !! "ItemID" = None \/ o !! "ItemID" = Some (VString "") -> key_of (VObject o) = None.
Proof. intros [H | H]; unfold key_of; cbn [Get]; rewrite H; reflexivity. Qed.

Lemma set_table_id (w : world) : set_table (table w) w = w.
Proof. destruct w; reflexivity. Qed.

Lemma marshal_lookup (item : gmap string value) (a : string) (v : value) :
  item !! a = Some v -> v <> VUndefined -> marshal item !! a = Some v.
Proof.
  intros H Hv. unfold marshal. rewrite lookup_omap, H. cbn.
  destruct v; congruence.
Qed.

Lemma TableName_known_insert (o : gmap string value) :
  TableName_known (VObject (<["TableName" := VString "ItemsTable"]> o)) = true.
Proof. unfold TableName_known. cbn [Get]. lookup_literal. reflexivity. Qed.

Lemma DocumentClient_unavailable (r : request) (w : world) :
  available w = false ->
  DocumentClient r w = (rejected (AWSError "ServiceUnavailable"), w).
Proof. intros H. unfold DocumentClient. rewrite H. reflexivity. Qed.

Lemma DocumentClient_put (b : value) (now : Z) (w : world) :
  available w = true ->
  DocumentClient (dynamoDb_put (put_params b now)) w
  = match key_of b with
    | Some k =>
        (fulfilled (VObject ∅),
         set_table (<[k := marshal (created_Item b now)]> (table w)) w)
    | None => (rejected ValidationException, w)
    end.
Proof.
  intros Ha. unfold DocumentClient, put_params. rewrite Ha, TableName_known_insert.
  cbn [negb Get]. lookup_literal.
  assert (key_of (VObject (created_Item b now)) = key_of b) as ->.
  { unfold key_of, created_Item. cbn [Get]. lookup_literal. reflexivity. }
  reflexivity.
Qed.

Lemma DocumentClient_get (p : value) (w : world) :
  available w = true ->
  DocumentClient (dynamoDb_get (Key_params p)) w
  = (match key_of p with
     | Some k =>
         match table w !! k with
         | Some item => fulfilled (VObject {[ "Item" := VObject item ]})
         | None => fulfilled (VObject ∅)
         end
     | None => rejected ValidationException
     end, w).
Proof.
  intros Ha. unfold DocumentClient, Key_params. rewrite Ha, TableName_known_insert.
  cbn [negb Get]. lookup_literal. rewrite key_of_Key.
  destruct (key_of p) as [k |]; [| reflexivity].
  destruct (table w !! k); reflexivity.
Qed.

Lemma DocumentClient_delete (p : value) (w : world) :
  available w = true ->
  DocumentClient (dynamoDb_delete (Key_params p)) w
  = match key_of p with
    | Some k => (fulfilled (VObject ∅), set_table (delete k (table w)) w)
    | None => (rejected ValidationException, w)
    end.
Proof.
  intros Ha. unfold DocumentClient, Key_params. rewrite Ha, TableName_known_insert.
  cbn [negb Get]. lookup_literal. rewrite key_of_Key. reflexivity.
Qed.

(** The expression of the handler, read as the backend reads it. *)
Lemma parse_update_expression :
  UpdateExpression.parse "set Name = :name, Description = :description"
  = Some [("Name", ":name"); ("Description", ":description")].
Proof. vm_compute. reflexivity. Qed.

(** No action can set an attribute called Name: the word is reserved. *)
Lemma action_value_Name (values : value) (placeholder : string) :
  action_value values ("Name", placeholder) = None.
Proof.
  unfold action_value. cbn [fst snd].
  assert (UpdateExpression.reserved "Name" = true) as -> by (vm_compute; reflexivity).
  rewrite andb_false_r. reflexivity.
Qed.

(** So the update the handler asks for is refused, whatever the values. *)
Lemma set_actions_update_params (p b : value) :
  set_actions (update_params p b) = None.
Proof.
  unfold set_actions, update_params. cbn [Get]. lookup_literal.
  rewrite parse_update_expression. cbn [String.eqb Ascii.eqb Bool.eqb mbind option_bind mapM].
  rewrite action_value_Name. reflexivity.
Qed.

Lemma DocumentClient_update (p b : value) (w : world) :
  available w = true ->
  DocumentClient (dynamoDb_update (update_params p b)) w
  = (rejected ValidationException, w).
Proof.
  intros Ha. unfold DocumentClient. rewrite Ha. cbn [negb].
  rewrite set_actions_update_params. repeat case_match; reflexivity.
Qed.

(** *** What each handler does, by the cases of its input *)

Ltac step_handler :=
  cbn [JSON_parse RequireObjectCoercible new_Date mbind mret Async_mbind Async_mret
       Async_bind try_catch await run requests member].

Lemma RequireObjectCoercible_ok (v : value) :
  v <> VUndefined -> v <> VNull -> RequireObjectCoercible v = Return v.
Proof. intros H1 H2. destruct v; congruence || reflexivity. Qed.

Ltac settle_call :=
  match goal with
  | |- context [DocumentClient ?r ?w] =>
      destruct (DocumentClient r w) as [[? | ?] ?]
  end.

Lemma run_CreateItem (event : Event) (b : value) (w : world) :
  event_body event = JSON_of b -> b <> VUndefined -> b <> VNull ->
  run (CreateItem event) w
  = (settle (respond 201 (message "Item created successfully"))
            (respond 500 (error_body "Could not create item"))
            (fst (DocumentClient (dynamoDb_put (put_params b (clock w))) w)),
     snd (DocumentClient (dynamoDb_put (put_params b (clock w))) w))
  /\ requests (CreateItem event) w = [dynamoDb_put (put_params b (clock w))].
Proof.
  intros Hb H1 H2. unfold CreateItem, put_params, created_Item. rewrite Hb.
  step_handler. rewrite RequireObjectCoercible_ok by assumption.
  step_handler. settle_call; split; reflexivity.
Qed.

Lemma run_ReadItem (event : Event) (p : value) (w : world) :
  pathParameters event = p -> p <> VUndefined -> p <> VNull ->
  run (ReadItem event) w
  = (match fst (DocumentClient (dynamoDb_get (Key_params p)) w) with
     | fulfilled result =>
         match result with
         | VUndefined | VNull =>
             fulfilled (respond 500 (error_body "Could not retrieve item"))
         | _ =>
             if ToBoolean (Get result "Item")
             then fulfilled (respond 200 (Get result "Item"))
             else fulfilled (respond 404 (message "Item not found"))
         end
     | rejected _ => fulfilled (respond 500 (error_body "Could not retrieve item"))
     end,
     snd (DocumentClient (dynamoDb_get (Key_params p)) w)).
Proof.
  intros Hp H1 H2. unfold ReadItem, Key_params. rewrite Hp.
  rewrite RequireObjectCoercible_ok by assumption.
  step_handler. settle_call; [| reflexivity].
  cbn [fst snd]. destruct a; step_handler; try reflexivity;
    match goal with |- context [ToBoolean ?x] => destruct (ToBoolean x) end; reflexivity.
Qed.

Lemma run_UpdateItem (event : Event) (p b : value) (w : world) :
  pathParameters event = p -> p <> VUndefined -> p <> VNull ->
  event_body event = JSON_of b -> b <> VUndefined -> b <> VNull ->
  run (UpdateItem event) w
  = (match fst (DocumentClient (dynamoDb_update (update_params p b)) w) with
     | fulfilled result =>
         match result with
         | VUndefined | VNull =>
             fulfilled (respond 500 (error_body "Could not update item"))
         | _ => fulfilled (respond 200 (Get result "Attributes"))
         end
     | rejected _ => fulfilled (respond 500 (error_body "Could not update item"))
     end,
     snd (DocumentClient (dynamoDb_update (update_params p b)) w)).
Proof.
  intros Hp H1 H2 Hb H3 H4. unfold UpdateItem, update_params. rewrite Hp, Hb.
  rewrite RequireObjectCoercible_ok by assumption. step_handler.
  rewrite RequireObjectCoercible_ok by assumption. step_handler.
  settle_call; [| reflexivity].
  cbn [fst snd]. destruct a; reflexivity.
Qed.

Lemma run_DeleteItem (event : Event) (p : value) (w : world) :
  pathParameters event = p -> p <> VUndefined -> p <> VNull ->
  run (DeleteItem event) w
  = (settle (respond 200 (message "Item deleted successfully"))
            (respond 500 (error_body "Could not delete item"))
            (fst (DocumentClient (dynamoDb_delete (Key_params p)) w)),
     snd (DocumentClient (dynamoDb_delete (Key_params p)) w)).
Proof.
  intros Hp H1 H2. unfold DeleteItem, Key_params. rewrite Hp.
  rewrite RequireObjectCoercible_ok by assumption.
  step_handler. settle_call; reflexivity.
Qed.

(** *** The handlers on a well-formed request *)

Lemma run_CreateItem_key (event : Event) (o : gmap string value) (id : string) (w : world) :
  event_body event = JSON_of (VObject o) -> o !! "ItemID" = Some (VString id) ->
  id <> "" -> available w = true ->
  run (CreateItem event) w
  = (fulfilled (respond 201 (message "Item created successfully")),
     set_table (<[id := marshal (created_Item (VObject o) (clock w))]> (table w)) w).
Proof.
  intros Hb Hi Hid Ha.
  destruct (run_CreateItem event (VObject o) w Hb) as [-> _]; [discriminate .. |].
  rewrite DocumentClient_put, (key_of_lookup o id Hi Hid) by exact Ha. reflexivity.
Qed.

Lemma run_ReadItem_key (event : Event) (p : gmap string value) (id : string) (w : world) :
  pathParameters event = VObject p -> p !! "ItemID" = Some (VString id) ->
  id <> "" -> available w = true ->
  run (ReadItem event) w
  = (fulfilled
       match table w !! id with
       | Some item => respond 200 (VObject item)
       | None => respond 404 (message "Item not found")
       end, w).
Proof.
  intros Hp Hpi Hid Ha.
  rewrite (run_ReadItem event (VObject p) w Hp) by discriminate.
  rewrite DocumentClient_get, (key_of_lookup p id Hpi Hid) by exact Ha. cbn [fst snd].
  destruct (table w !! id); cbn [Get]; lookup_literal; reflexivity.
Qed.

Lemma run_DeleteItem_key (event : Event) (p : gmap string value) (id : string) (w : world) :
  pathParameters event = VObject p -> p !! "ItemID" = Some (VString id) ->
  id <> "" -> available w = true ->
  run (DeleteItem event) w
  = (fulfilled (respond 200 (message "Item deleted successfully")),
     set_table (delete id (table w)) w).
Proof.
  intros Hp Hpi Hid Ha.
  rewrite (run_DeleteItem event (VObject p) w Hp) by discriminate.
  rewrite DocumentClient_delete, (key_of_lookup p id Hpi Hid) by exact Ha. reflexivity.
Qed.

(** ** The claims *)

(** C1. Create with a non-empty id, then Read of that id on a healthy
    backend: the record read has the name and the description that were
    created, and its CreatedAt is the ISO-8601 text of the clock at the time
    of creation, whatever the request body holds besides. *)
Theorem C1_create_then_read
    (w : world) (create read : Event) (o p : gmap string value)
    (id name description : string) :
  available w = true -> Date.valid_time_value (clock w) = true -> id <> "" ->
  event_body create = JSON_of (VObject o) ->
  o !! "ItemID" = Some (VString id) ->
  o !! "Name" = Some (VString name) ->
  o !! "Description" = Some (VString description) ->
  pathParameters read = VObject p -> p !! "ItemID" = Some (VString id) ->
  exists (w1 : world) (record : value),
    run (CreateItem create) w
    = (fulfilled {| statusCode := 201; body := message "Item created successfully" |}, w1)
    /\ run (ReadItem read) w1 = (fulfilled {| statusCode := 200; body := record |}, w1)
    /\ Get record "Name" = VString name
    /\ Get record "Description" = VString description
    /\ Get record "CreatedAt" = VString (Date.toISOString (clock w))
    /\ Date.is_ISO_8601 (Date.toISOString (clock w)) = true
    /\ Date.parse (Date.toISOString (clock w)) = Some (clock w).
Proof.
  intros Ha Ht Hid Hb Hi Hn Hd Hp Hpi.
  set (item := marshal (created_Item (VObject o) (clock w))).
  exists (set_table (<[id := item]> (table w)) w), (VObject item).
  split; [apply run_CreateItem_key; assumption |].
  split.
  { rewrite (run_ReadItem_key read p id) by assumption.
    cbn [table set_table]. rewrite lookup_insert_eq. reflexivity. }
  subst item. unfold created_Item. cbn [Get].
  repeat split.
  - erewrite marshal_lookup; [reflexivity | lookup_literal; rewrite Hn; reflexivity | discriminate].
  - erewrite marshal_lookup; [reflexivity | lookup_literal; rewrite Hd; reflexivity | discriminate].
  - erewrite marshal_lookup; [reflexivity | lookup_literal; reflexivity | discriminate].
  - apply DateFacts.toISOString_is_ISO_8601, Ht.
  - apply DateFacts.parse_toISOString, Ht.
Qed.

Lemma C1_create_then_read_witness :
  exists (w1 : world) (record : value),
    run (CreateItem create42) world0
    = (fulfilled {| statusCode := 201; body := message "Item created successfully" |}, w1)
    /\ run (ReadItem read42) w1 = (fulfilled {| statusCode := 200; body := record |}, w1)
    /\ Get record "Name" = VString "Widget"
    /\ Get record "Description" = VString "A widget"
    /\ Get record "CreatedAt" = VString (Date.toISOString (clock world0))
    /\ Date.is_ISO_8601 (Date.toISOString (clock world0)) = true
    /\ Date.parse (Date.toISOString (clock world0)) = Some (clock world0).
Proof.
  apply (C1_create_then_read world0 create42 read42 Widget path42 "42" "Widget" "A widget");
    first [ reflexivity | discriminate ].
Defined.

(** C2. An Update request on the id of a stored record leaves the record
    stored and changes at most its Name and Description: ItemID, CreatedAt
    and every other attribute are as before, and so is every other record. *)
Theorem C2_update_keeps_id_and_createdAt
    (w : world) (event : Event) (p item : gmap string value) (id : string) :
  table w !! id = Some item ->
  pathParameters event = VObject p -> p !! "ItemID" = Some (VString id) ->
  exists item' : gmap string value,
    table (snd (run (UpdateItem event) w)) !! id = Some item'
    /\ item' !! "ItemID" = item !! "ItemID"
    /\ item' !! "CreatedAt" = item !! "CreatedAt"
    /\ (forall a : string, a <> "Name" -> a <> "Description" -> item' !! a = item !! a)
    /\ (forall id' : string, id' <> id ->
          table (snd (run (UpdateItem event) w)) !! id' = table w !! id').
Proof.
  intros Hitem Hp Hpi.
  assert (forall w', w' = w -> exists item' : gmap string value,
            table w' !! id = Some item'
            /\ item' !! "ItemID" = item !! "ItemID"
            /\ item' !! "CreatedAt" = item !! "CreatedAt"
            /\ (forall a : string, a <> "Name" -> a <> "Description" -> item' !! a = item !! a)
            /\ (forall id' : string, id' <> id -> table w' !! id' = table w !! id'))
    as Hsame.
  { intros w' ->. exists item. repeat split; auto. }
  destruct (event_body event) as [| b] eqn:Hb.
  { (* the body is not JSON: the handler throws before any call *)
    apply Hsame. unfold UpdateItem. rewrite Hp, Hb. reflexivity. }
  destruct (RequireObjectCoercible b) as [b' | e | |] eqn:Hc;
    try (destruct b; discriminate Hc).
  2:{ apply Hsame. unfold UpdateItem. rewrite Hp, Hb. step_handler.
      rewrite Hc. reflexivity. }
  assert (b <> VUndefined /\ b <> VNull) as [Hb1 Hb2]
    by (split; intros ->; discriminate Hc).
  rewrite (run_UpdateItem event (VObject p) b w Hp) by (discriminate || assumption).
  cbn [snd].
  destruct (available w) eqn:Ha.
  2:{ rewrite DocumentClient_unavailable by exact Ha. apply Hsame. reflexivity. }
  rewrite DocumentClient_update by exact Ha. apply Hsame. reflexivity.
Qed.

Lemma C2_update_keeps_id_and_createdAt_witness :
  exists item' : gmap string value,
    table (snd (run (UpdateItem update42) world42)) !! "42" = Some item'
    /\ item' !! "ItemID" = marshal (created_Item (VObject Widget) (clock world0)) !! "ItemID"
    /\ item' !! "CreatedAt" = marshal (created_Item (VObject Widget) (clock world0)) !! "CreatedAt"
    /\ (forall a : string, a <> "Name" -> a <> "Description" ->
          item' !! a = marshal (created_Item (VObject Widget) (clock world0)) !! a)
    /\ (forall id' : string, id' <> "42" ->
          table (snd (run (UpdateItem update42) world42)) !! id' = table world42 !! id').
Proof.
  apply (C2_update_keeps_id_and_createdAt world42 update42 path42
           (marshal (created_Item (VObject Widget) (clock world0))) "42");
    reflexivity.
Defined.

(** The update of the scenario is refused by the backend for the reserved
    word in its expression: the answer is the generic failure and the
    record keeps its name. *)
Example update42_is_refused :
  fst (run (UpdateItem update42) world42)
  = fulfilled {| statusCode := 500; body := error_body "Could not update item" |}
  /\ table (snd (run (UpdateItem update42) world42)) !! "42" ≫= (.!! "Name")
     = Some (VString "Widget").
Proof. split; vm_compute; reflexivity. Qed.

(** C3. Delete of a non-empty id that has no record answers 200 with the
    success message and leaves the store as it was; after any Delete on a
    healthy backend a second Delete of the same id succeeds as well; the
    failure response is given exactly when the backend does not answer. *)
Theorem C3_delete_idempotent
    (event : Event) (p : gmap string value) (id : string) :
  pathParameters event = VObject p -> p !! "ItemID" = Some (VString id) -> id <> "" ->
  (forall w : world, available w = true -> table w !! id = None ->
     run (DeleteItem event) w
     = (fulfilled {| statusCode := 200; body := message "Item deleted successfully" |}, w))
  /\ (forall w : world, available w = true ->
        exists w1 : world,
          run (DeleteItem event) w
          = (fulfilled {| statusCode := 200; body := message "Item deleted successfully" |}, w1)
          /\ table w1 !! id = None
          /\ run (DeleteItem event) w1
             = (fulfilled {| statusCode := 200; body := message "Item deleted successfully" |}, w1))
  /\ (forall w : world,
        fst (run (DeleteItem event) w)
        = fulfilled {| statusCode := 500; body := error_body "Could not delete item" |}
        <-> available w = false).
Proof.
  intros Hp Hpi Hid.
  pose proof (key_of_lookup p id Hpi Hid) as Hk.
  assert (forall w : world, available w = true ->
            run (DeleteItem event) w
            = (fulfilled (respond 200 (message "Item deleted successfully")),
               set_table (delete id (table w)) w)) as Hrun.
  { intros w Ha. rewrite (run_DeleteItem event (VObject p) w Hp) by discriminate.
    rewrite DocumentClient_delete, Hk by exact Ha. reflexivity. }
  assert (forall w : world, table w !! id = None -> set_table (delete id (table w)) w = w)
    as Hfix.
  { intros w Hnone. rewrite delete_id by exact Hnone. apply set_table_id. }
  split; [| split].
  - intros w Ha Hnone. rewrite Hrun, Hfix by assumption. reflexivity.
  - intros w Ha. exists (set_table (delete id (table w)) w).
    assert (table (set_table (delete id (table w)) w) !! id = None) as Hnone
      by (cbn [table set_table]; apply lookup_delete_eq).
    split; [apply Hrun, Ha |]. split; [exact Hnone |].
    rewrite Hrun by exact Ha. rewrite Hfix by exact Hnone. reflexivity.
  - intros w. destruct (available w) eqn:Ha.
    + rewrite Hrun by exact Ha. cbn [fst]. split; discriminate.
    + rewrite (run_DeleteItem event (VObject p) w Hp) by discriminate.
      rewrite DocumentClient_unavailable by exact Ha. cbn [fst settle]. split; reflexivity.
Qed.

Lemma C3_delete_idempotent_witness :
  (forall w : world, available w = true -> table w !! "42" = None ->
     run (DeleteItem delete42) w
     = (fulfilled {| statusCode := 200; body := message "Item deleted successfully" |}, w))
  /\ (forall w : world, available w = true ->
        exists w1 : world,
          run (DeleteItem delete42) w
          = (fulfilled {| statusCode := 200; body := message "Item deleted successfully" |}, w1)
          /\ table w1 !! "42" = None
          /\ run (DeleteItem delete42) w1
             = (fulfilled {| statusCode := 200; body := message "Item deleted successfully" |}, w1))
  /\ (forall w : world,
        fst (run (DeleteItem delete42) w)
        = fulfilled {| statusCode := 500; body := error_body "Could not delete item" |}
        <-> available w = false).
Proof.
  apply (C3_delete_idempotent delete42 path42 "42"); first [ reflexivity | discriminate ].
Defined.

(** C4. On a healthy backend a Read of a non-empty id answers 404 "Item not
    found" exactly when the id has no record, and the 500 "Could not
    retrieve item" of a backend fault exactly when the backend does not
    answer; the two responses differ. *)
Theorem C4_read_not_found_is_not_backend_fault
    (event : Event) (p : gmap string value) (id : string) :
  pathParameters event = VObject p -> p !! "ItemID" = Some (VString id) -> id <> "" ->
  (forall w : world, available w = true -> table w !! id = None ->
     run (ReadItem event) w
     = (fulfilled {| statusCode := 404; body := message "Item not found" |}, w))
  /\ (forall w : world,
        fst (run (ReadItem event) w)
        = fulfilled {| statusCode := 404; body := message "Item not found" |}
        <-> available w = true /\ table w !! id = None)
  /\ (forall w : world,
        fst (run (ReadItem event) w)
        = fulfilled {| statusCode := 500; body := error_body "Could not retrieve item" |}
        <-> available w = false)
  /\ {| statusCode := 404; body := message "Item not found" |}
     <> {| statusCode := 500; body := error_body "Could not retrieve item" |}.
Proof.
  intros Hp Hpi Hid.
  pose proof (key_of_lookup p id Hpi Hid) as Hk.
  assert (forall w : world, available w = true ->
            run (ReadItem event) w
            = (fulfilled
                 match table w !! id with
                 | Some item => respond 200 (VObject item)
                 | None => respond 404 (message "Item not found")
                 end, w)) as Hrun.
  { intros w Ha. rewrite (run_ReadItem event (VObject p) w Hp) by discriminate.
    rewrite DocumentClient_get, Hk by exact Ha. cbn [fst snd].
    destruct (table w !! id); cbn [Get]; lookup_literal; reflexivity. }
  assert (forall w : world, available w = false ->
            run (ReadItem event) w
            = (fulfilled (respond 500 (error_body "Could not retrieve item")), w)) as Hdown.
  { intros w Ha. rewrite (run_ReadItem event (VObject p) w Hp) by discriminate.
    rewrite DocumentClient_unavailable by exact Ha. reflexivity. }
  split; [| split; [| split]].
  - intros w Ha Hnone. rewrite Hrun, Hnone by exact Ha. reflexivity.
  - intros w. destruct (available w) eqn:Ha.
    + rewrite Hrun by exact Ha. cbn [fst].
      destruct (table w !! id); split; try discriminate; try tauto.
      intros [_ ?]; discriminate.
    + rewrite Hdown by exact Ha. cbn [fst]. split; [discriminate | intros [? _]; discriminate].
  - intros w. destruct (available w) eqn:Ha.
    + rewrite Hrun by exact Ha. cbn [fst].
      destruct (table w !! id); split; discriminate.
    + rewrite Hdown by exact Ha. cbn [fst]. split; reflexivity.
  - discriminate.
Qed.

Lemma C4_read_not_found_is_not_backend_fault_witness :
  (forall w : world, available w = true -> table w !! "42" = None ->
     run (ReadItem read42) w
     = (fulfilled {| statusCode := 404; body := message "Item not found" |}, w))
  /\ (forall w : world,
        fst (run (ReadItem read42) w)
        = fulfilled {| statusCode := 404; body := message "Item not found" |}
        <-> available w = true /\ table w !! "42" = None)
  /\ (forall w : world,
        fst (run (ReadItem read42) w)
        = fulfilled {| statusCode := 500; body := error_body "Could not retrieve item" |}
        <-> available w = false)
  /\ {| statusCode := 404; body := message "Item not found" |}
     <> {| statusCode := 500; body := error_body "Could not retrieve item" |}.
Proof.
  apply (C4_read_not_found_is_not_backend_fault read42 path42 "42");
    first [ reflexivity | discriminate ].
Defined.

(** C5. Create on the id of a stored record issues its put without looking
    at the store, answers 201 with the success message, and leaves under
    the id the new record alone: the id, name and description of the request
    and the CreatedAt of this creation.  Nothing of the old record, its
    CreatedAt included, is kept; the other records are untouched. *)
Theorem C5_create_overwrites
    (w : world) (event : Event) (o old : gmap string value) (id : string) :
  available w = true -> id <> "" ->
  event_body event = JSON_of (VObject o) -> o !! "ItemID" = Some (VString id) ->
  table w !! id = Some old ->
  exists w1 : world,
    run (CreateItem event) w
    = (fulfilled {| statusCode := 201; body := message "Item created successfully" |}, w1)
    /\ requests (CreateItem event) w
       = [dynamoDb_put
            (VObject {[ "TableName" := VString "ItemsTable";
                        "Item" := VObject {[ "ItemID" := VString id;
                                             "Name" := Get (VObject o) "Name";
                                             "Description" := Get (VObject o) "Description";
                                             "CreatedAt" := VString (Date.toISOString (clock w)) ]} ]})]
    /\ table w1 !! id
       = Some (marshal {[ "ItemID" := VString id;
                          "Name" := Get (VObject o) "Name";
                          "Description" := Get (VObject o) "Description";
                          "CreatedAt" := VString (Date.toISOString (clock w)) ]})
    /\ (forall new : gmap string value, table w1 !! id = Some new ->
          new !! "CreatedAt" = Some (VString (Date.toISOString (clock w))))
    /\ (forall id' : string, id' <> id -> table w1 !! id' = table w !! id').
Proof.
  intros Ha Hid Hb Hi _.
  pose proof (key_of_lookup o id Hi Hid) as Hk.
  destruct (run_CreateItem event (VObject o) w Hb) as [Hrun Hreq]; [discriminate .. |].
  rewrite DocumentClient_put, Hk in Hrun by exact Ha. cbn [fst snd settle] in Hrun.
  assert (Get (VObject o) "ItemID" = VString id) as HI by (cbn [Get]; rewrite Hi; reflexivity).
  unfold put_params, created_Item in *. rewrite HI in *.
  eexists. split; [exact Hrun |]. split; [exact Hreq |].
  cbn [table set_table]. rewrite lookup_insert_eq.
  split; [reflexivity |]. split.
  - intros new [= <-]. apply marshal_lookup; [| discriminate]. lookup_literal. reflexivity.
  - intros id' Hne. rewrite lookup_insert_ne by congruence. reflexivity.
Qed.

Lemma C5_create_overwrites_witness :
  exists w1 : world,
    run (CreateItem create42) (world42_later)
    = (fulfilled {| statusCode := 201; body := message "Item created successfully" |}, w1)
    /\ requests (CreateItem create42) (world42_later)
       = [dynamoDb_put
            (VObject {[ "TableName" := VString "ItemsTable";
                        "Item" := VObject {[ "ItemID" := VString "42";
                                             "Name" := Get (VObject Widget) "Name";
                                             "Description" := Get (VObject Widget) "Description";
                                             "CreatedAt" := VString (Date.toISOString 1800000000000) ]} ]})]
    /\ table w1 !! "42"
       = Some (marshal {[ "ItemID" := VString "42";
                          "Name" := Get (VObject Widget) "Name";
                          "Description" := Get (VObject Widget) "Description";
                          "CreatedAt" := VString (Date.toISOString 1800000000000) ]})
    /\ (forall new : gmap string value, table w1 !! "42" = Some new ->
          new !! "CreatedAt" = Some (VString (Date.toISOString 1800000000000)))
    /\ (forall id' : string, id' <> "42" -> table w1 !! id' = table world42 !! id').
Proof.
  apply (C5_create_overwrites
           (world42_later)
           create42 Widget (marshal (created_Item (VObject Widget) (clock world0))) "42");
    first [ reflexivity | discriminate ].
Defined.

(** The two creations of the scenario stamp different instants: the first
    CreatedAt is gone after the second. *)
Example overwrite_loses_createdAt :
  Date.toISOString 1700000000000 = "2023-11-14T22:13:20.000Z"
  /\ Date.toISOString 1800000000000 = "2027-01-15T08:00:00.000Z".
Proof. split; vm_compute; reflexivity. Qed.

(** C6. Create and Update parse [event.body] before their [try]: on a body
    that is not JSON the handler's promise is rejected with the SyntaxError,
    on a [null] body with a TypeError, and no response is produced.  Read
    and Delete reject likewise when there are no path parameters. *)
Theorem C6_handlers_throw_past_their_boundary (w : world) (p : value) :
  run (CreateItem {| event_body := not_JSON; pathParameters := p |}) w
  = (rejected SyntaxError, w)
  /\ run (CreateItem {| event_body := JSON_of VNull; pathParameters := p |}) w
     = (rejected TypeError, w)
  /\ run (UpdateItem {| event_body := not_JSON; pathParameters := VObject path42 |}) w
     = (rejected SyntaxError, w)
  /\ run (UpdateItem {| event_body := JSON_of VNull; pathParameters := VObject path42 |}) w
     = (rejected TypeError, w)
  /\ run (ReadItem {| event_body := JSON_of VNull; pathParameters := VNull |}) w
     = (rejected TypeError, w)
  /\ run (DeleteItem {| event_body := JSON_of VNull; pathParameters := VNull |}) w
     = (rejected TypeError, w).
Proof. repeat split; reflexivity. Qed.

(** C7 as stated fails: a Create request without an id does reach the
    backend. *)
Lemma C7_missing_id_reaches_backend :
  requests
    (CreateItem {| event_body := JSON_of (VObject {[ "Name" := VString "Widget" ]});
                   pathParameters := VNull |})
    world0
  <> [].
Proof.
  destruct (run_CreateItem
              {| event_body := JSON_of (VObject {[ "Name" := VString "Widget" ]});
                 pathParameters := VNull |}
              (VObject {[ "Name" := VString "Widget" ]}) world0 eq_refl)
    as [_ ->]; discriminate.
Qed.

(** C7, amended. A Create request whose id is missing or empty is not
    checked by the handler: it issues its one put call, the backend rejects
    the item for its key, the handler gives the generic failure response 500
    "Could not create item", and the store is as before. *)
Theorem C7_create_without_id
    (w : world) (event : Event) (o : gmap string value) :
  available w = true ->
  event_body event = JSON_of (VObject o) ->
  o !! "ItemID" = None \/ o !! "ItemID" = Some (VString "") ->
  (exists params : value, requests (CreateItem event) w = [dynamoDb_put params])
  /\ run (CreateItem event) w
     = (fulfilled {| statusCode := 500; body := error_body "Could not create item" |}, w).
Proof.
  intros Ha Hb Hi.
  destruct (run_CreateItem event (VObject o) w Hb) as [Hrun Hreq]; [discriminate .. |].
  split; [eexists; exact Hreq |].
  rewrite Hrun, DocumentClient_put, (key_of_missing o Hi) by exact Ha. reflexivity.
Qed.

Lemma C7_create_without_id_witness :
  (exists params : value,
     requests
       (CreateItem {| event_body := JSON_of (VObject {[ "Name" := VString "Widget" ]});
                      pathParameters := VNull |}) world0
     = [dynamoDb_put params])
  /\ run (CreateItem {| event_body := JSON_of (VObject {[ "Name" := VString "Widget" ]});
                        pathParameters := VNull |}) world0
     = (fulfilled {| statusCode := 500; body := error_body "Could not create item" |}, world0).
Proof.
  apply (C7_create_without_id world0
           {| event_body := JSON_of (VObject {[ "Name" := VString "Widget" ]});
              pathParameters := VNull |}
           {[ "Name" := VString "Widget" ]});
    [ reflexivity | reflexivity | left; reflexivity ].
Defined.




(** C9. Create, then Delete, then Read of one non-empty id on a healthy
    backend: the first two succeed, the store then holds nothing under the
    id, and the Read answers 404 "Item not found". *)
Theorem C9_create_delete_read
    (w : world) (create remove read : Event) (o pd pr : gmap string value) (id : string) :
  available w = true -> id <> "" ->
  event_body create = JSON_of (VObject o) -> o !! "ItemID" = Some (VString id) ->
  pathParameters remove = VObject pd -> pd !! "ItemID" = Some (VString id) ->
  pathParameters read = VObject pr -> pr !! "ItemID" = Some (VString id) ->
  exists w1 w2 : world,
    run (CreateItem create) w
    = (fulfilled {| statusCode := 201; body := message "Item created successfully" |}, w1)
    /\ is_Some (table w1 !! id)
    /\ run (DeleteItem remove) w1
       = (fulfilled {| statusCode := 200; body := message "Item deleted successfully" |}, w2)
    /\ table w2 !! id = None
    /\ run (ReadItem read) w2
       = (fulfilled {| statusCode := 404; body := message "Item not found" |}, w2).
Proof.
  intros Ha Hid Hb Hi Hpd Hpdi Hpr Hpri.
  eexists _, _. split; [apply (run_CreateItem_key create o id w); assumption |].
  split; [cbn [table set_table]; rewrite lookup_insert_eq; eexists; reflexivity |].
  split; [apply (run_DeleteItem_key remove pd id); assumption |].
  assert (forall w' : world, table (set_table (delete id (table w')) w') !! id = None)
    as Hgone by (intros w'; cbn [table set_table]; apply lookup_delete_eq).
  split; [apply Hgone |].
  rewrite (run_ReadItem_key read pr id) by assumption.
  rewrite Hgone. reflexivity.
Qed.

Lemma C9_create_delete_read_witness :
  exists w1 w2 : world,
    run (CreateItem create42) world0
    = (fulfilled {| statusCode := 201; body := message "Item created successfully" |}, w1)
    /\ is_Some (table w1 !! "42")
    /\ run (DeleteItem delete42) w1
       = (fulfilled {| statusCode := 200; body := message "Item deleted successfully" |}, w2)
    /\ table w2 !! "42" = None
    /\ run (ReadItem read42) w2
       = (fulfilled {| statusCode := 404; body := message "Item not found" |}, w2).
Proof.
  apply (C9_create_delete_read world0 create42 delete42 read42 Widget path42 path42 "42");
    first [ reflexivity | discriminate ].
Defined.

(** C10. The load-item handler, given the record the fetch returned: a
    record whose [name] is absent or the empty string is shown as "Item not
    found", exactly what is shown for the body of the not-found response;
    whatever is fetched, its fields are shown if and only if its [name] is
    truthy. *)
Theorem C10_load_item_needs_truthy_name
    (id : string) (fetch_json : string -> settled value) (o : gmap string value) :
  id <> "" ->
  fetch_json (FrontEnd.apiBaseUrl +:+ "/" +:+ id) = fulfilled (VObject o) ->
  o !! "name" = None \/ o !! "name" = Some (VString "") ->
  FrontEnd.load_item (Some id) fetch_json = fulfilled (Some FrontEnd.not_found_markup)
  /\ FrontEnd.load_item (Some id) fetch_json
     = FrontEnd.load_item (Some id) (fun _ => fulfilled (message "Item not found"))
  /\ (forall (fetch_any : string -> settled value) (data : value),
        fetch_any (FrontEnd.apiBaseUrl +:+ "/" +:+ id) = fulfilled data ->
        data <> VUndefined -> data <> VNull ->
        (FrontEnd.load_item (Some id) fetch_any = fulfilled (Some (FrontEnd.item_markup data))
         <-> ToBoolean (Get data "name") = true)).
Proof.
  intros Hid Hf Hname.
  assert (forall (f : string -> settled value) (data : value),
            f (FrontEnd.apiBaseUrl +:+ "/" +:+ id) = fulfilled data ->
            data <> VUndefined -> data <> VNull ->
            FrontEnd.load_item (Some id) f
            = if ToBoolean (Get data "name")
              then fulfilled (Some (FrontEnd.item_markup data))
              else fulfilled (Some FrontEnd.not_found_markup)) as Hload.
  { intros f data Hdata H1 H2. unfold FrontEnd.load_item.
    destruct id; [congruence |]. rewrite Hdata.
    destruct data; congruence || reflexivity. }
  assert (ToBoolean (Get (VObject o) "name") = false) as Hfalsy
    by (cbn [Get]; destruct Hname as [-> | ->]; reflexivity).
  split; [| split].
  - rewrite (Hload fetch_json (VObject o) Hf) by discriminate.
    rewrite Hfalsy. reflexivity.
  - rewrite (Hload fetch_json (VObject o) Hf) by discriminate.
    rewrite (Hload _ (message "Item not found") eq_refl) by discriminate.
    rewrite Hfalsy. reflexivity.
  - intros f data Hdata H1 H2. rewrite (Hload f data Hdata H1 H2).
    destruct (ToBoolean (Get data "name")); split; try reflexivity; discriminate.
Qed.

Lemma C10_load_item_needs_truthy_name_witness :
  FrontEnd.load_item (Some "42") (fun _ => fulfilled (VObject unnamed42))
  = fulfilled (Some FrontEnd.not_found_markup)
  /\ FrontEnd.load_item (Some "42") (fun _ => fulfilled (VObject unnamed42))
     = FrontEnd.load_item (Some "42") (fun _ => fulfilled (message "Item not found"))
  /\ (forall (fetch_any : string -> settled value) (data : value),
        fetch_any (FrontEnd.apiBaseUrl +:+ "/" +:+ "42") = fulfilled data ->
        data <> VUndefined -> data <> VNull ->
        (FrontEnd.load_item (Some "42") fetch_any
         = fulfilled (Some (FrontEnd.item_markup data))
         <-> ToBoolean (Get data "name") = true)).
Proof.
  apply (C10_load_item_needs_truthy_name "42"
           (fun _ => fulfilled (VObject unnamed42)) unnamed42);
    [ discriminate | reflexivity | right; reflexivity ].
Defined.

(** A record with a name is shown with its fields. *)
Example load_item_shows_named_record :
  FrontEnd.load_item (Some "42")
    (fun _ => fulfilled (VObject (<["name" := VString "Widget"]> unnamed42)))
  = fulfilled (Some (FrontEnd.item_markup
                       (VObject (<["name" := VString "Widget"]> unnamed42)))).
Proof. reflexivity. Qed.

(** * What else the code does *)

(** ** Further facts about the handlers *)

(** A rejected call leaves the world as it was. *)
Lemma DocumentClient_rejected (r : request) (w : world) (e : error) :
  fst (DocumentClient r w) = rejected e -> snd (DocumentClient r w) = w.
Proof.
  unfold DocumentClient. destruct (available w); cbn [negb]; [| reflexivity].
  destruct r; repeat case_match; cbn [fst snd]; intros; congruence.
Qed.

Lemma is_coercible_true (v : value) : is_coercible v = true -> coercible v.
Proof. destruct v; (discriminate || (intros _; split; discriminate)). Qed.

Lemma is_coercible_false (v : value) : is_coercible v = false -> v = VUndefined \/ v = VNull.
Proof. destruct v; (discriminate || auto). Qed.

(** Every invocation either throws on its input, before any call and with
    the world untouched, or issues its one call and answers by how the call
    settles. *)
Lemma handler_run (i : invocation) (w : world) :
  match call_issued i (clock w) with
  | None =>
      (exists e : error, run (handler i) w = (rejected e, w))
      /\ requests (handler i) w = []
  | Some r =>
      requests (handler i) w = [r]
      /\ run (handler i) w
         = (fulfilled (answer i (fst (DocumentClient r w))), snd (DocumentClient r w))
  end.
Proof.
  destruct i as [event | event | event | event]; cbn [handler call_issued].
  - (* CreateItem *)
    destruct (event_body event) as [| b] eqn:Hb.
    { unfold CreateItem. rewrite Hb. split; [eexists |]; reflexivity. }
    destruct (is_coercible b) eqn:Hc.
    + destruct (is_coercible_true b Hc) as [H1 H2].
      destruct (run_CreateItem event b w Hb H1 H2) as [-> ->].
      split; [reflexivity |]. f_equal.
      destruct (fst (DocumentClient (dynamoDb_put (put_params b (clock w))) w)); reflexivity.
    + unfold CreateItem. rewrite Hb.
      destruct (is_coercible_false b Hc) as [-> | ->]; split; try eexists; reflexivity.
  - (* ReadItem *)
    destruct (is_coercible (pathParameters event)) eqn:Hc.
    + destruct (is_coercible_true _ Hc) as [H1 H2].
      rewrite (run_ReadItem event _ w eq_refl H1 H2).
      split.
      * unfold ReadItem, Key_params.
        rewrite RequireObjectCoercible_ok by assumption. step_handler.
        settle_call; [| reflexivity].
        destruct a; step_handler; try reflexivity;
          match goal with |- context [ToBoolean ?x] => destruct (ToBoolean x) end;
          reflexivity.
      * f_equal.
        destruct (fst (DocumentClient (dynamoDb_get (Key_params (pathParameters event))) w))
          as [[] |]; try reflexivity;
          cbn [answer]; match goal with |- context [ToBoolean ?x] => destruct (ToBoolean x) end;
          reflexivity.
    + unfold ReadItem.
      destruct (is_coercible_false _ Hc) as [-> | ->]; split; try eexists; reflexivity.
  - (* UpdateItem *)
    destruct (is_coercible (pathParameters event)) eqn:Hc.
    2:{ assert ((exists e : error, run (UpdateItem event) w = (rejected e, w))
                /\ requests (UpdateItem event) w = []) as H.
        { unfold UpdateItem.
          destruct (is_coercible_false _ Hc) as [-> | ->]; split; try eexists; reflexivity. }
        destruct (event_body event); exact H. }
    destruct (is_coercible_true _ Hc) as [H1 H2].
    destruct (event_body event) as [| b] eqn:Hb.
    { unfold UpdateItem. rewrite Hb, RequireObjectCoercible_ok by assumption.
      split; [eexists |]; reflexivity. }
    cbn [andb].
    destruct (is_coercible b) eqn:Hcb.
    + destruct (is_coercible_true b Hcb) as [H3 H4].
      rewrite (run_UpdateItem event _ b w eq_refl H1 H2 Hb H3 H4).
      split.
      * unfold UpdateItem, update_params. rewrite Hb.
        rewrite RequireObjectCoercible_ok by assumption. step_handler.
        rewrite RequireObjectCoercible_ok by assumption. step_handler.
        settle_call; [| reflexivity]. destruct a; reflexivity.
      * f_equal.
        destruct (fst (DocumentClient
                         (dynamoDb_update (update_params (pathParameters event) b)) w))
          as [[] |]; reflexivity.
    + unfold UpdateItem. rewrite Hb, RequireObjectCoercible_ok by assumption.
      destruct (is_coercible_false b Hcb) as [-> | ->]; split; try eexists; reflexivity.
  - (* DeleteItem *)
    destruct (is_coercible (pathParameters event)) eqn:Hc.
    + destruct (is_coercible_true _ Hc) as [H1 H2].
      rewrite (run_DeleteItem event _ w eq_refl H1 H2).
      split.
      * unfold DeleteItem, Key_params.
        rewrite RequireObjectCoercible_ok by assumption. step_handler.
        settle_call; reflexivity.
      * f_equal.
        destruct (fst (DocumentClient (dynamoDb_delete (Key_params (pathParameters event))) w));
          reflexivity.
    + unfold DeleteItem.
      destruct (is_coercible_false _ Hc) as [-> | ->]; split; try eexists; reflexivity.
Qed.

Lemma key_of_Some (v : value) (k : string) :
  key_of v = Some k -> Get v "ItemID" = VString k /\ k <> "".
Proof.
  unfold key_of. destruct (Get v "ItemID") as [| | | | s | |]; try discriminate.
  destruct s; [discriminate |]. intros [= <-]. split; [reflexivity | discriminate].
Qed.

Lemma created_Item_ok (b : value) (now : Z) (k : string) :
  key_of b = Some k -> item_ok k (marshal (created_Item b now)).
Proof.
  intros Hk. destruct (key_of_Some b k Hk) as [HI Hne].
  split; [exact Hne |]. split.
  - apply marshal_lookup; [| discriminate].
    unfold created_Item. lookup_literal. rewrite HI. reflexivity.
  - intros a v Hav. unfold marshal in Hav. rewrite lookup_omap in Hav.
    destruct (created_Item b now !! a) as [v' |] eqn:Ha; [| discriminate].
    cbn in Hav. split; [destruct v'; congruence |].
    unfold created_Item in Ha.
    destruct (decide (a = "ItemID")); [auto |].
    destruct (decide (a = "Name")); [auto |].
    destruct (decide (a = "Description")); [auto |].
    destruct (decide (a = "CreatedAt")); [auto |].
    rewrite !lookup_insert_ne, lookup_singleton_ne in Ha by congruence. discriminate.
Qed.

(** What the call of an invocation does to the table: nothing, or it
    removes or replaces the record under the key the invocation names. *)
Lemma table_after_call (i : invocation) (w : world) (r : request) :
  call_issued i (clock w) = Some r ->
  table (snd (DocumentClient r w)) = table w
  \/ exists k : string,
       target_key i = Some k
       /\ (table (snd (DocumentClient r w)) = delete k (table w)
           \/ exists item : gmap string value,
                table (snd (DocumentClient r w)) = <[k := item]> (table w)
                /\ ((forall old : gmap string value,
                       table w !! k = Some old -> item_ok k old) -> item_ok k item)).
Proof.
  intros Hr. destruct (available w) eqn:Ha.
  2:{ left. rewrite DocumentClient_unavailable by exact Ha. reflexivity. }
  destruct i as [event | event | event | event]; cbn [call_issued target_key] in *.
  - destruct (event_body event) as [| b]; [discriminate |].
    destruct (is_coercible b); [| discriminate]. injection Hr as <-.
    rewrite DocumentClient_put by exact Ha.
    destruct (key_of b) as [k |] eqn:Hk; [| left; reflexivity].
    right. exists k. split; [reflexivity |]. right. eexists. split; [reflexivity |].
    intros _. apply created_Item_ok, Hk.
  - destruct (is_coercible (pathParameters event)); [| discriminate]. injection Hr as <-.
    left. rewrite DocumentClient_get by exact Ha. reflexivity.
  - destruct (event_body event) as [| b]; [discriminate |].
    destruct (is_coercible (pathParameters event) && is_coercible b); [| discriminate].
    injection Hr as <-. rewrite DocumentClient_update by exact Ha.
    left. reflexivity.
  - destruct (is_coercible (pathParameters event)); [| discriminate]. injection Hr as <-.
    rewrite DocumentClient_delete by exact Ha.
    destruct (key_of (pathParameters event)) as [k |] eqn:Hk; [| left; reflexivity].
    right. exists k. split; [reflexivity |]. left. reflexivity.
Qed.

(** The table after an invocation, by the same cases. *)
Lemma table_after_run (i : invocation) (w : world) :
  table (snd (run (handler i) w)) = table w
  \/ exists k : string,
       target_key i = Some k
       /\ (table (snd (run (handler i) w)) = delete k (table w)
           \/ exists item : gmap string value,
                table (snd (run (handler i) w)) = <[k := item]> (table w)
                /\ ((forall old : gmap string value,
                       table w !! k = Some old -> item_ok k old) -> item_ok k item)).
Proof.
  pose proof (handler_run i w) as H.
  destruct (call_issued i (clock w)) as [r |] eqn:Hr.
  - destruct H as [_ ->]. cbn [snd]. apply (table_after_call i w r Hr).
  - destruct H as [[e ->] _]. left. reflexivity.
Qed.

(** X: every invocation keeps the shape of the stored items. *)
Lemma table_ok_run (i : invocation) (w : world) :
  table_ok (table w) -> table_ok (table (snd (run (handler i) w))).
Proof.
  intros Hok.
  destruct (table_after_run i w) as [-> | (k & _ & [-> | (item & -> & Hitem)])].
  - exact Hok.
  - intros k' item' H. destruct (decide (k' = k)) as [-> | Hne].
    + rewrite lookup_delete_eq in H. discriminate.
    + rewrite lookup_delete_ne in H by congruence. apply Hok, H.
  - intros k' item' H. destruct (decide (k' = k)) as [-> | Hne].
    + rewrite lookup_insert_eq in H. injection H as <-. apply Hitem. intros old. apply Hok.
    + rewrite lookup_insert_ne in H by congruence. apply Hok, H.
Qed.

(** ** The order of timestamps *)

Module TimestampOrder.
Import Date DateFacts.

Lemma compare_cons (c : ascii) (r1 r2 : string) :
  (String c r1 ?= String c r2)%string = (r1 ?= r2)%string.
Proof.
  cbn [String.compare]. unfold Ascii.compare. rewrite N.compare_refl. reflexivity.
Qed.

Lemma digit_compare (a b : Z) :
  0 <= a <= 9 -> 0 <= b <= 9 -> (digit a ?= digit b)%char = (a ?= b).
Proof.
  intros Ha Hb. unfold Ascii.compare, digit.
  rewrite !N_ascii_embedding by lia.
  rewrite <- N2Z.inj_compare. rewrite !N2Z.inj_add, !Z2N.id by lia.
  apply Z.add_compare_mono_l.
Qed.

Lemma digits_mod (n : nat) (x : Z) :
  0 <= x -> digits n (x mod 10 ^ Z.of_nat n) = digits n x.
Proof.
  intros Hx. assert (forall m, (m <= n)%nat ->
                       digits m (x mod 10 ^ Z.of_nat n) = digits m x) as H.
  { induction m as [| m IH]; intros Hm; [reflexivity |].
    cbn [digits]. rewrite IH by lia. f_equal. f_equal.
    replace (Z.of_nat n) with (Z.of_nat m + (Z.of_nat n - Z.of_nat m)) by lia.
    rewrite Z.pow_add_r by lia.
    assert (0 < 10 ^ Z.of_nat m) by (apply Z.pow_pos_nonneg; lia).
    assert (0 < 10 ^ (Z.of_nat n - Z.of_nat m)) by (apply Z.pow_pos_nonneg; lia).
    rewrite Z.rem_mul_r by lia.
    rewrite (Z.mul_comm (10 ^ Z.of_nat m)), Z.div_add by lia.
    rewrite (Z.div_small (x mod 10 ^ Z.of_nat m)) by (apply Z.mod_pos_bound; lia).
    rewrite Z.add_0_l.
    replace (Z.of_nat n - Z.of_nat m) with (1 + (Z.of_nat n - Z.of_nat m - 1)) by lia.
    rewrite Z.pow_add_r, Z.pow_1_r by lia.
    assert (0 < 10 ^ (Z.of_nat n - Z.of_nat m - 1)) by (apply Z.pow_pos_nonneg; lia).
    rewrite Z.rem_mul_r by lia.
    rewrite (Z.mul_comm 10), Z.mod_add by lia.
    apply Z.mod_mod. lia. }
  apply H. lia.
Qed.

(** Numbers printed with the same number of digits compare as they do as
    numbers, and on a tie the comparison goes on with what follows. *)
Lemma digits_compare (n : nat) (x y : Z) (r1 r2 : string) :
  0 <= x < 10 ^ Z.of_nat n -> 0 <= y < 10 ^ Z.of_nat n ->
  (digits n x +:+ r1 ?= digits n y +:+ r2)%string = lex (x ?= y) (r1 ?= r2)%string.
Proof.
  revert x y. induction n as [| n IH]; intros x y Hx Hy.
  - cbn in Hx, Hy. assert (x = 0) as -> by lia. assert (y = 0) as -> by lia. reflexivity.
  - rewrite Nat2Z.inj_succ, Z.pow_succ_r in Hx, Hy by lia.
    assert (0 < 10 ^ Z.of_nat n) as Hp by (apply Z.pow_pos_nonneg; lia).
    cbn [digits]. rewrite !append_cons. cbn [String.compare].
    assert (0 <= x / 10 ^ Z.of_nat n <= 9) as Ha
      by (split; [apply Z.div_pos; lia | apply Z.lt_succ_r, Z.div_lt_upper_bound; lia]).
    assert (0 <= y / 10 ^ Z.of_nat n <= 9) as Hb
      by (split; [apply Z.div_pos; lia | apply Z.lt_succ_r, Z.div_lt_upper_bound; lia]).
    rewrite !(Z.mod_small (_ / _) 10) by lia.
    rewrite digit_compare by assumption.
    pose proof (Z.div_mod x (10 ^ Z.of_nat n) ltac:(lia)) as Ex.
    pose proof (Z.div_mod y (10 ^ Z.of_nat n) ltac:(lia)) as Ey.
    pose proof (Z.mod_pos_bound x (10 ^ Z.of_nat n) Hp) as Bx.
    pose proof (Z.mod_pos_bound y (10 ^ Z.of_nat n) Hp) as By.
    set (a := x / 10 ^ Z.of_nat n) in *. set (b := y / 10 ^ Z.of_nat n) in *.
    destruct (Z.compare_spec a b) as [Hab | Hab | Hab].
    + rewrite <- (digits_mod n x), <- (digits_mod n y) by lia.
      rewrite IH by assumption. f_equal.
      rewrite Hab in Ex. clearbody a b.
      destruct (Z.compare_spec (x mod 10 ^ Z.of_nat n) (y mod 10 ^ Z.of_nat n));
        symmetry;
        [apply Z.compare_eq_iff | apply Z.compare_lt_iff | apply Z.compare_gt_iff]; lia.
    + assert ((x ?= y) = Lt) as -> by (apply Z.compare_lt_iff; nia). reflexivity.
    + assert ((x ?= y) = Gt) as -> by (apply Z.compare_gt_iff; nia). reflexivity.
Qed.


Lemma lex_Eq_r (c : comparison) : lex c Eq = c.
Proof. destruct c; reflexivity. Qed.

Lemma four_digit_year_range (t : Z) :
  four_digit_year t = true -> 0 <= YearFromTime t <= 9999.
Proof.
  unfold four_digit_year. intros H. apply andb_prop in H as [H1 H2].
  apply Z.leb_le in H1, H2.
  assert (-719528 <= Day t <= 2932896) as Hd by (unfold Day, msPerDay; div_lia).
  unfold YearFromTime. split.
  - apply YearFromDay_largest. change (DayFromYear 0) with (-719528). lia.
  - destruct (Z.le_gt_cases (YearFromDay (Day t)) 9999) as [Hle | Hgt]; [exact Hle |].
    pose proof (YearFromDay_spec (Day t)) as [Hlo _].
    pose proof (DayFromYear_mono 10000 (YearFromDay (Day t)) ltac:(lia)) as Hm.
    change (DayFromYear 10000) with 2932897 in Hm. lia.
Qed.

Lemma four_digit_year_valid (t : Z) :
  four_digit_year t = true -> valid_time_value t = true.
Proof.
  unfold four_digit_year, valid_time_value. intros H. apply andb_prop in H as [H1 H2].
  apply Z.leb_le in H1, H2. apply andb_true_intro. split; apply Z.leb_le; lia.
Qed.

(** The text of a four-digit-year timestamp compares as its fields do, the
    most significant first. *)
Lemma toISOString_compare (t1 t2 : Z) :
  four_digit_year t1 = true -> four_digit_year t2 = true ->
  (toISOString t1 ?= toISOString t2)%string
  = lex (YearFromTime t1 ?= YearFromTime t2)
      (lex (MonthFromTime t1 + 1 ?= MonthFromTime t2 + 1)
         (lex (DateFromTime t1 ?= DateFromTime t2)
            (lex (HourFromTime t1 ?= HourFromTime t2)
               (lex (MinFromTime t1 ?= MinFromTime t2)
                  (lex (SecFromTime t1 ?= SecFromTime t2)
                     (msFromTime t1 ?= msFromTime t2)))))).
Proof.
  intros H1 H2.
  pose proof (four_digit_year_range t1 H1) as Hy1.
  pose proof (four_digit_year_range t2 H2) as Hy2.
  pose proof (month_date_range t1) as (Hm1 & Hd1 & _).
  pose proof (month_date_range t2) as (Hm2 & Hd2 & _).
  pose proof (time_fields_range t1) as (Hh1 & Hmi1 & Hs1 & Hms1 & _).
  pose proof (time_fields_range t2) as (Hh2 & Hmi2 & Hs2 & Hms2 & _).
  assert (forall y m, DaysInMonth y m <= 31) as Hdm.
  { intros y m. unfold DaysInMonth. destruct (IsLeapYear y);
      repeat (match goal with |- context [match ?x with _ => _ end] => destruct x end;
              try lia). }
  pose proof (Hdm (YearFromTime t1) (MonthFromTime t1 + 1)).
  pose proof (Hdm (YearFromTime t2) (MonthFromTime t2 + 1)).
  unfold toISOString, year_string.
  assert (forall y, 0 <= y <= 9999 -> (0 <=? y) && (y <=? 9999) = true) as Hrange
    by (intros y Hy; apply andb_true_intro; split; apply Z.leb_le; lia).
  rewrite !Hrange by assumption.
  repeat (rewrite digits_compare by (cbn; lia); f_equal;
          rewrite ?append_cons, ?append_nil, ?compare_cons).
  apply lex_Eq_r.
Qed.

Lemma Day_lt (t1 t2 : Z) : Day t1 < Day t2 -> t1 < t2.
Proof. unfold Day, msPerDay. intros H. div_lia. Qed.

Lemma month_cases (m : Z) :
  0 <= m <= 11 ->
  m = 0 \/ m = 1 \/ m = 2 \/ m = 3 \/ m = 4 \/ m = 5 \/ m = 6 \/ m = 7 \/ m = 8
  \/ m = 9 \/ m = 10 \/ m = 11.
Proof. lia. Qed.

(** A later month starts after the earlier month has ended. *)
Lemma DayFromMonth_lt (y m m' : Z) :
  0 <= m <= 11 -> 0 <= m' <= 11 -> m < m' ->
  DayFromMonth y (m + 1) + DaysInMonth y (m + 1) <= DayFromMonth y (m' + 1).
Proof.
  intros Hm Hm' Hlt. unfold DayFromMonth, DaysInMonth.
  destruct (IsLeapYear y);
    destruct (month_cases m Hm) as [-> | [-> | [-> | [-> | [-> | [-> | [-> | [-> | [-> | [-> | [-> | ->]]]]]]]]]]];
    destruct (month_cases m' Hm') as [-> | [-> | [-> | [-> | [-> | [-> | [-> | [-> | [-> | [-> | [-> | ->]]]]]]]]]]];
    try lia; simpl; lia.
Qed.

(** The fields of a time value, compared most significant first, order
    time values as the integers do. *)
Lemma fields_compare (t1 t2 : Z) :
  lex (YearFromTime t1 ?= YearFromTime t2)
    (lex (MonthFromTime t1 + 1 ?= MonthFromTime t2 + 1)
       (lex (DateFromTime t1 ?= DateFromTime t2)
          (lex (HourFromTime t1 ?= HourFromTime t2)
             (lex (MinFromTime t1 ?= MinFromTime t2)
                (lex (SecFromTime t1 ?= SecFromTime t2)
                   (msFromTime t1 ?= msFromTime t2))))))
  = (t1 ?= t2).
Proof.
  pose proof (month_date_range t1) as (Hm1 & Hd1 & HD1).
  pose proof (month_date_range t2) as (Hm2 & Hd2 & HD2).
  pose proof (time_fields_range t1) as (Hh1 & Hmi1 & Hs1 & Hms1 & HT1).
  pose proof (time_fields_range t2) as (Hh2 & Hmi2 & Hs2 & Hms2 & HT2).
  pose proof (YearFromDay_spec (Day t1)) as Y1.
  pose proof (YearFromDay_spec (Day t2)) as Y2.
  fold (YearFromTime t1) in Y1. fold (YearFromTime t2) in Y2.
  assert (t1 = Day t1 * msPerDay + TimeWithinDay t1) as E1
    by (unfold Day, TimeWithinDay, msPerDay; div_lia).
  assert (t2 = Day t2 * msPerDay + TimeWithinDay t2) as E2
    by (unfold Day, TimeWithinDay, msPerDay; div_lia).
  assert (forall c, (c = Lt -> t1 < t2) -> (c = Gt -> t2 < t1) -> (c = Eq -> t1 = t2) ->
                    c = (t1 ?= t2)) as Hc.
  { intros c HLt HGt HEq. symmetry. destruct c.
    - apply Z.compare_eq_iff; auto.
    - apply Z.compare_lt_iff; auto.
    - apply Z.compare_gt_iff; auto using Z.lt_gt. }
  destruct (Z.compare_spec (YearFromTime t1) (YearFromTime t2)) as [Hy | Hy | Hy];
    cbn [lex].
  2:{ apply Hc; try discriminate. intros _. apply Day_lt.
      pose proof (DayFromYear_mono (YearFromTime t1 + 1) (YearFromTime t2) ltac:(lia)). lia. }
  2:{ apply Hc; try discriminate. intros _. apply Day_lt.
      pose proof (DayFromYear_mono (YearFromTime t2 + 1) (YearFromTime t1) ltac:(lia)). lia. }
  rewrite Hy in *.
  destruct (Z.compare_spec (MonthFromTime t1 + 1) (MonthFromTime t2 + 1)) as [Hm | Hm | Hm];
    cbn [lex].
  2:{ apply Hc; try discriminate. intros _. apply Day_lt.
      pose proof (DayFromMonth_lt (YearFromTime t2) (MonthFromTime t1) (MonthFromTime t2)
                    Hm1 Hm2 ltac:(lia)). lia. }
  2:{ apply Hc; try discriminate. intros _. apply Day_lt.
      pose proof (DayFromMonth_lt (YearFromTime t2) (MonthFromTime t2) (MonthFromTime t1)
                    Hm2 Hm1 ltac:(lia)). lia. }
  rewrite Hm in *.
  destruct (Z.compare_spec (DateFromTime t1) (DateFromTime t2)) as [Hd | Hd | Hd];
    cbn [lex].
  2:{ apply Hc; try discriminate. intros _. apply Day_lt. lia. }
  2:{ apply Hc; try discriminate. intros _. apply Day_lt. lia. }
  assert (Day t1 = Day t2) as HDay by lia.
  unfold msPerHour, msPerMinute, msPerSecond, msPerDay in *.
  destruct (Z.compare_spec (HourFromTime t1) (HourFromTime t2)) as [Hh | Hh | Hh];
    cbn [lex]; [| apply Hc; try discriminate; intros _; lia ..].
  destruct (Z.compare_spec (MinFromTime t1) (MinFromTime t2)) as [Hmi | Hmi | Hmi];
    cbn [lex]; [| apply Hc; try discriminate; intros _; lia ..].
  destruct (Z.compare_spec (SecFromTime t1) (SecFromTime t2)) as [Hs | Hs | Hs];
    cbn [lex]; [| apply Hc; try discriminate; intros _; lia ..].
  destruct (Z.compare_spec (msFromTime t1) (msFromTime t2)) as [Hms | Hms | Hms];
    apply Hc; try discriminate; intros _; lia.
Qed.

End TimestampOrder.

Lemma table_ok_empty : table_ok ∅.
Proof. intros k item H. rewrite lookup_empty in H. discriminate. Qed.

Lemma table_ok_replay (h : list occasion) (t : gmap string (gmap string value)) :
  table_ok t -> table_ok (replay h t).
Proof.
  revert t. induction h as [| o h IH]; intros t Hok; [exact Hok |].
  cbn [replay]. apply IH.
  apply (table_ok_run (what o) {| table := t; available := service_up o; clock := at_time o |}).
  exact Hok.
Qed.

Lemma get_changes_nothing (params : value) (w : world) :
  snd (DocumentClient (dynamoDb_get params) w) = w.
Proof.
  unfold DocumentClient. destruct (available w); cbn [negb]; [| reflexivity].
  repeat case_match; reflexivity.
Qed.

(** The call of UpdateItem is rejected on every backend: one that answers
    refuses the expression, one that does not answers nothing. *)
Lemma update_is_rejected (p b : value) (w : world) :
  exists e : error,
    DocumentClient (dynamoDb_update (update_params p b)) w = (rejected e, w).
Proof.
  destruct (available w) eqn:Ha.
  - rewrite DocumentClient_update by exact Ha. eauto.
  - rewrite DocumentClient_unavailable by exact Ha. eauto.
Qed.

(** So UpdateItem, once past its input, answers the generic failure and
    leaves the world as it was. *)
Lemma run_UpdateItem_refused (event : Event) (w : world) :
  (exists e : error, run (UpdateItem event) w = (rejected e, w))
  \/ run (UpdateItem event) w
     = (fulfilled (respond 500 (error_body "Could not update item")), w).
Proof.
  pose proof (handler_run (invoke_UpdateItem event) w) as H.
  cbn [handler call_issued] in H.
  destruct (event_body event) as [| b]; [left; apply H |].
  destruct (is_coercible (pathParameters event) && is_coercible b); [| left; apply H].
  destruct H as [_ ->].
  destruct (update_is_rejected (pathParameters event) b w) as [e ->].
  right. reflexivity.
Qed.

(** ** Further properties of the code *)

(** X1. ReadItem is an observer: whatever the event and the state of the
    service, the run leaves the table, the clock and the service as they
    were. *)
Theorem X1_read_changes_nothing (event : Event) (w : world) :
  snd (run (ReadItem event) w) = w.
Proof.
  pose proof (handler_run (invoke_ReadItem event) w) as H.
  cbn [handler call_issued] in H.
  destruct (is_coercible (pathParameters event)).
  - destruct H as [_ ->]. apply get_changes_nothing.
  - destruct H as [[e ->] _]. reflexivity.
Qed.

(** X2. From the empty table, after any sequence of invocations of the four
    handlers, at any times and whether or not the service answered, every
    stored item sits under a non-empty key, has that key as its ItemID, has
    no attribute besides ItemID, Name, Description and CreatedAt, and no
    attribute that is [undefined]. *)
Theorem X2_stored_items_are_well_formed (h : list occasion) :
  table_ok (replay h ∅).
Proof. apply table_ok_replay, table_ok_empty. Qed.

(** X3. An invocation changes the store at no key other than the one it
    names: the record under any other key is the same before and after. *)
Theorem X3_other_ids_untouched (i : invocation) (w : world) (k : string) :
  target_key i <> Some k ->
  table (snd (run (handler i) w)) !! k = table w !! k.
Proof.
  intros Hk.
  destruct (table_after_run i w) as [-> | (k' & Ht & [-> | (item & -> & _)])].
  - reflexivity.
  - apply lookup_delete_ne. congruence.
  - apply lookup_insert_ne. congruence.
Qed.

Lemma X3_other_ids_untouched_witness :
  table (snd (run (handler (invoke_DeleteItem delete42)) world42_43)) !! "43"
  = table world42_43 !! "43".
Proof.
  apply (X3_other_ids_untouched (invoke_DeleteItem delete42) world42_43 "43").
  vm_compute. discriminate.
Defined.

(** In that run the record 42 is deleted and the record 43, stored beside
    it, is still there. *)
Example delete42_leaves_43 :
  is_Some (table world42_43 !! "42")
  /\ table (snd (run (handler (invoke_DeleteItem delete42)) world42_43)) !! "42" = None
  /\ table (snd (run (handler (invoke_DeleteItem delete42)) world42_43)) !! "43"
     = Some (marshal (created_Item (VObject Gadget) (clock world42)))
  /\ Get (VObject (marshal (created_Item (VObject Gadget) (clock world42)))) "Name"
     = VString "Gadget".
Proof.
  split; [eexists; vm_compute; reflexivity |]. repeat split; vm_compute; reflexivity.
Qed.

(** X4. A handler throws only before its backend call.  An invocation whose
    promise is rejected has issued no call and changed nothing; an
    invocation issues at most one call, of the operation that belongs to
    its handler; and once a call is issued the invocation ends in a
    response. *)
Theorem X4_one_call_and_then_a_response (i : invocation) (w : world) :
  (forall e : error, fst (run (handler i) w) = rejected e ->
     requests (handler i) w = [] /\ snd (run (handler i) w) = w)
  /\ (length (requests (handler i) w) <= 1)%nat
  /\ (forall r : request, In r (requests (handler i) w) ->
        match i, r with
        | invoke_CreateItem _, dynamoDb_put _
        | invoke_ReadItem _, dynamoDb_get _
        | invoke_UpdateItem _, dynamoDb_update _
        | invoke_DeleteItem _, dynamoDb_delete _ => True
        | _, _ => False
        end)
  /\ (requests (handler i) w <> [] ->
      exists resp : response, fst (run (handler i) w) = fulfilled resp).
Proof.
  pose proof (handler_run i w) as H.
  destruct (call_issued i (clock w)) as [r |] eqn:Hr.
  - destruct H as [Hreq Hrun]. rewrite Hreq, Hrun. cbn [fst snd length].
    split; [intros e; discriminate |]. split; [lia |]. split; [| eauto].
    intros r' [<- | []].
    destruct i as [event | event | event | event]; cbn [call_issued] in Hr;
      repeat case_match; try discriminate; injection Hr as <-; exact I.
  - destruct H as [[e Hrun] Hreq]. rewrite Hreq, Hrun. cbn [fst snd length].
    split; [auto |]. split; [lia |]. split; [intros r [] |]. congruence.
Qed.

(** X5. The responses of each handler: CreateItem answers 201 or 500,
    ReadItem 200, 404 or 500, UpdateItem and DeleteItem 200 or 500, and
    nothing else; a 500 carries the handler's own error text, a 404 the
    not-found message, a 201 the creation message. *)
Theorem X5_status_codes (i : invocation) (w : world) (resp : response) :
  fst (run (handler i) w) = fulfilled resp ->
  In (statusCode resp) (statuses i)
  /\ (statusCode resp = 500 -> body resp = error_body (failure_text i))
  /\ (statusCode resp = 404 -> body resp = message "Item not found")
  /\ (statusCode resp = 201 -> body resp = message "Item created successfully").
Proof.
  intros Hresp. pose proof (handler_run i w) as H.
  destruct (call_issued i (clock w)) as [r |].
  2:{ destruct H as [[e Hrun] _]. rewrite Hrun in Hresp. discriminate. }
  destruct H as [_ Hrun]. rewrite Hrun in Hresp. cbn [fst] in Hresp.
  injection Hresp as <-.
  destruct (fst (DocumentClient r w)) as [result | e]; destruct i; cbn [answer].
  all: repeat case_match.
  all: cbn [respond statusCode body statuses failure_text In].
  all: repeat split; try discriminate; try reflexivity; auto 6.
Qed.

Lemma X5_status_codes_witness :
  In (statusCode {| statusCode := 404; body := message "Item not found" |})
     (statuses (invoke_ReadItem read42))
  /\ (statusCode {| statusCode := 404; body := message "Item not found" |} = 500 ->
      body {| statusCode := 404; body := message "Item not found" |}
      = error_body (failure_text (invoke_ReadItem read42)))
  /\ (statusCode {| statusCode := 404; body := message "Item not found" |} = 404 ->
      body {| statusCode := 404; body := message "Item not found" |}
      = message "Item not found")
  /\ (statusCode {| statusCode := 404; body := message "Item not found" |} = 201 ->
      body {| statusCode := 404; body := message "Item not found" |}
      = message "Item created successfully").
Proof.
  apply (X5_status_codes (invoke_ReadItem read42) world0). reflexivity.
Defined.

(** X6. When the backend rejects the call of an invocation, for whatever
    reason, the invocation answers 500 with its handler's own error text and
    leaves the store as it was. *)
Theorem X6_rejected_call (i : invocation) (w : world) (r : request) (e : error) :
  requests (handler i) w = [r] ->
  fst (DocumentClient r w) = rejected e ->
  run (handler i) w
  = (fulfilled {| statusCode := 500; body := error_body (failure_text i) |}, w).
Proof.
  intros Hreq Hrej. pose proof (handler_run i w) as H.
  destruct (call_issued i (clock w)) as [r' |].
  - destruct H as [Hreq' Hrun]. rewrite Hreq in Hreq'. injection Hreq' as <-.
    rewrite Hrun, Hrej, (DocumentClient_rejected r w e Hrej). reflexivity.
  - destruct H as [_ Hreq']. rewrite Hreq in Hreq'. discriminate.
Qed.

Lemma X6_rejected_call_witness :
  run (handler (invoke_UpdateItem update42))
      {| table := table world42; available := false; clock := 1800000000000 |}
  = (fulfilled {| statusCode := 500;
                  body := error_body (failure_text (invoke_UpdateItem update42)) |},
     {| table := table world42; available := false; clock := 1800000000000 |}).
Proof.
  apply (X6_rejected_call (invoke_UpdateItem update42)
           {| table := table world42; available := false; clock := 1800000000000 |}
           (dynamoDb_update (update_params (VObject path42) (VObject Widget2)))
           (AWSError "ServiceUnavailable"));
    reflexivity.
Defined.

Lemma item_ok_other_attribute (k : string) (item : gmap string value) (a : string) :
  item_ok k item ->
  a <> "ItemID" -> a <> "Name" -> a <> "Description" -> a <> "CreatedAt" ->
  Get (VObject item) a = VUndefined.
Proof.
  intros (_ & _ & Hattrs) H1 H2 H3 H4. cbn [Get].
  destruct (item !! a) as [v |] eqn:Ha; [| reflexivity].
  destruct (Hattrs a v Ha) as [_ [? | [? | [? | ?]]]]; congruence.
Qed.

(** X7. ReadItem, UpdateItem and DeleteItem do not check the id of the
    path: when it is missing or empty they issue their call all the same,
    the backend rejects it, and the answer is the handler's generic 500,
    with the store unchanged. *)
Theorem X7_path_id_missing_or_empty
    (w : world) (read update remove : Event) (p o : gmap string value) :
  p !! "ItemID" = None \/ p !! "ItemID" = Some (VString "") ->
  pathParameters read = VObject p -> pathParameters update = VObject p ->
  pathParameters remove = VObject p -> event_body update = JSON_of (VObject o) ->
  (run (ReadItem read) w
   = (fulfilled {| statusCode := 500; body := error_body "Could not retrieve item" |}, w)
   /\ length (requests (ReadItem read) w) = 1%nat)
  /\ (run (UpdateItem update) w
      = (fulfilled {| statusCode := 500; body := error_body "Could not update item" |}, w)
      /\ length (requests (UpdateItem update) w) = 1%nat)
  /\ (run (DeleteItem remove) w
      = (fulfilled {| statusCode := 500; body := error_body "Could not delete item" |}, w)
      /\ length (requests (DeleteItem remove) w) = 1%nat).
Proof.
  intros Hid Hr Hu Hd Hb.
  pose proof (key_of_missing p Hid) as Hk.
  assert (forall (i : invocation) (r : request),
            call_issued i (clock w) = Some r ->
            (available w = true -> fst (DocumentClient r w) = rejected ValidationException) ->
            run (handler i) w
            = (fulfilled (respond 500 (error_body (failure_text i))), w)
            /\ length (requests (handler i) w) = 1%nat) as Hgen.
  { intros i r Hi Hrej. pose proof (handler_run i w) as H. rewrite Hi in H.
    destruct H as [Hreq Hrun]. rewrite Hreq. split; [| reflexivity].
    destruct (available w) eqn:Ha.
    - rewrite Hrun, (Hrej eq_refl), (DocumentClient_rejected r w _ (Hrej eq_refl)).
      reflexivity.
    - rewrite Hrun, DocumentClient_unavailable by exact Ha. reflexivity. }
  split; [| split].
  - apply (Hgen (invoke_ReadItem read) (dynamoDb_get (Key_params (VObject p)))).
    + cbn [call_issued]. rewrite Hr. reflexivity.
    + intros Ha. rewrite DocumentClient_get, Hk by exact Ha. reflexivity.
  - apply (Hgen (invoke_UpdateItem update)
             (dynamoDb_update (update_params (VObject p) (VObject o)))).
    + cbn [call_issued]. rewrite Hu, Hb. reflexivity.
    + intros Ha. rewrite DocumentClient_update by exact Ha. reflexivity.
  - apply (Hgen (invoke_DeleteItem remove) (dynamoDb_delete (Key_params (VObject p)))).
    + cbn [call_issued]. rewrite Hd. reflexivity.
    + intros Ha. rewrite DocumentClient_delete, Hk by exact Ha. reflexivity.
Qed.

Lemma X7_path_id_missing_or_empty_witness :
  (run (ReadItem {| event_body := JSON_of (VObject Widget2); pathParameters := VObject ∅ |})
       world42
   = (fulfilled {| statusCode := 500; body := error_body "Could not retrieve item" |},
      world42)
   /\ length (requests (ReadItem {| event_body := JSON_of (VObject Widget2);
                                    pathParameters := VObject ∅ |}) world42) = 1%nat)
  /\ (run (UpdateItem {| event_body := JSON_of (VObject Widget2);
                         pathParameters := VObject ∅ |}) world42
      = (fulfilled {| statusCode := 500; body := error_body "Could not update item" |},
         world42)
      /\ length (requests (UpdateItem {| event_body := JSON_of (VObject Widget2);
                                         pathParameters := VObject ∅ |}) world42) = 1%nat)
  /\ (run (DeleteItem {| event_body := JSON_of (VObject Widget2);
                         pathParameters := VObject ∅ |}) world42
      = (fulfilled {| statusCode := 500; body := error_body "Could not delete item" |},
         world42)
      /\ length (requests (DeleteItem {| event_body := JSON_of (VObject Widget2);
                                         pathParameters := VObject ∅ |}) world42) = 1%nat).
Proof.
  apply (X7_path_id_missing_or_empty world42
           {| event_body := JSON_of (VObject Widget2); pathParameters := VObject ∅ |}
           {| event_body := JSON_of (VObject Widget2); pathParameters := VObject ∅ |}
           {| event_body := JSON_of (VObject Widget2); pathParameters := VObject ∅ |}
           ∅ Widget2);
    first [ reflexivity | left; reflexivity ].
Defined.

(** X8. UpdateItem never updates.  Its expression names the attribute
    Name, a reserved word, without ExpressionAttributeNames, so the backend
    refuses the call: whatever the event and the state of the service, the
    store is as before, a response, if there is one, is the 500 "Could not
    update item", and a Read afterwards answers what it would have answered
    before. *)
Theorem X8_update_never_takes_effect (event : Event) (w : world) :
  snd (run (UpdateItem event) w) = w
  /\ (forall resp : response,
        fst (run (UpdateItem event) w) = fulfilled resp ->
        resp = {| statusCode := 500; body := error_body "Could not update item" |})
  /\ (forall read : Event,
        run (ReadItem read) (snd (run (UpdateItem event) w)) = run (ReadItem read) w).
Proof.
  destruct (run_UpdateItem_refused event w) as [[e ->] | ->]; cbn [fst snd].
  - split; [reflexivity |]. split; [discriminate | reflexivity].
  - split; [reflexivity |]. split; [| reflexivity]. intros resp [= <-]. reflexivity.
Qed.

(** X9. Timestamps of the years 0000 to 9999 sort as the instants they
    name: the order of the texts, character by character, is the order of
    the time values. *)
Theorem X9_timestamps_sort_chronologically (t1 t2 : Z) :
  four_digit_year t1 = true ->
  four_digit_year t2 = true ->
  (Date.toISOString t1 ?= Date.toISOString t2)%string = (t1 ?= t2).
Proof.
  intros H1 H2. rewrite TimestampOrder.toISOString_compare by assumption.
  apply TimestampOrder.fields_compare.
Qed.

Lemma X9_timestamps_sort_chronologically_witness :
  (Date.toISOString 1700000000000 ?= Date.toISOString 1800000000000)%string
  = (1700000000000 ?= 1800000000000).
Proof.
  apply (X9_timestamps_sort_chronologically 1700000000000 1800000000000); reflexivity.
Defined.

(** Past the year 9999 the order of the texts is no longer that of the
    instants: the first millisecond of the year 10000 sorts before the last
    of 9999. *)
Example timestamps_past_9999_sort_wrongly :
  (Date.toISOString 253402300800000 ?= Date.toISOString 253402300799999)%string = Lt
  /\ (253402300800000 ?= 253402300799999) = Gt.
Proof. split; vm_compute; reflexivity. Qed.

(** What ReadItem answers on a table of well-formed items: an object in
    which [name] is not set. *)
Lemma ReadItem_body_has_no_name (event : Event) (w : world) (resp : response) :
  table_ok (table w) ->
  fst (run (ReadItem event) w) = fulfilled resp ->
  coercible (body resp) /\ Get (body resp) "name" = VUndefined.
Proof.
  intros Hok Hresp. pose proof (handler_run (invoke_ReadItem event) w) as H.
  cbn [handler call_issued] in H.
  destruct (is_coercible (pathParameters event)).
  2:{ destruct H as [[e Hrun] _]. rewrite Hrun in Hresp. discriminate. }
  destruct H as [_ Hrun]. rewrite Hrun in Hresp. cbn [fst] in Hresp.
  injection Hresp as <-.
  destruct (available w) eqn:Ha.
  2:{ rewrite DocumentClient_unavailable by exact Ha.
      split; [split; discriminate | reflexivity]. }
  rewrite DocumentClient_get by exact Ha. cbn [fst].
  destruct (key_of (pathParameters event)) as [k |];
    [| split; [split; discriminate | reflexivity]].
  destruct (table w !! k) as [item |] eqn:Hitem;
    [| split; [split; discriminate | reflexivity]].
  cbn [answer Get]. lookup_literal. cbn [ToBoolean respond body].
  split; [split; discriminate |].
  apply (item_ok_other_attribute k); [apply Hok, Hitem | discriminate ..].
Qed.

(** X10. The page never shows an item: whatever ReadItem answers on a table
    the handlers have filled, the load-item handler of the page, given that
    answer, writes "Item not found".  The handlers store the name under
    [Name]; the page looks for [name]. *)
Theorem X10_page_never_shows_a_stored_item
    (h : list occasion) (w : world) (event : Event) (resp : response) (id : string)
    (fetch_json : string -> settled value) :
  table w = replay h ∅ -> id <> "" ->
  fst (run (ReadItem event) w) = fulfilled resp ->
  fetch_json (FrontEnd.apiBaseUrl +:+ "/" +:+ id) = fulfilled (body resp) ->
  FrontEnd.load_item (Some id) fetch_json = fulfilled (Some FrontEnd.not_found_markup).
Proof.
  intros Ht Hid Hresp Hfetch.
  assert (table_ok (table w)) as Hok
    by (rewrite Ht; apply table_ok_replay, table_ok_empty).
  destruct (ReadItem_body_has_no_name event w resp Hok Hresp) as [[H1 H2] Hname].
  unfold FrontEnd.load_item. destruct id; [congruence |]. rewrite Hfetch.
  destruct (body resp); try congruence; rewrite Hname; reflexivity.
Qed.

Lemma X10_page_never_shows_a_stored_item_witness :
  FrontEnd.load_item (Some "42")
    (fun _ => fulfilled (VObject (marshal (created_Item (VObject Widget) (clock world0)))))
  = fulfilled (Some FrontEnd.not_found_markup).
Proof.
  apply (X10_page_never_shows_a_stored_item
           [ {| at_time := 1700000000000; service_up := true;
                what := invoke_CreateItem create42 |} ]
           world42 read42
           {| statusCode := 200;
              body := VObject (marshal (created_Item (VObject Widget) (clock world0))) |}
           "42");
    first [ reflexivity | discriminate ].
Defined.

(** X11. The create form never creates an item.  It sends [id], [name] and
    [description]; CreateItem reads [ItemID], [Name] and [Description], so
    it puts an item without a key, the backend rejects it, the answer is
    500 "Could not create item" with the store unchanged, and the page,
    which shows [data.message], alerts [undefined]. *)
Theorem X11_create_form_never_creates
    (id name description : string) (w : world) (event : Event) (resp : response)
    (fetch_json : string -> Forms.RequestInit -> settled value) :
  event_body event
  = JSON_of (VObject {[ "id" := VString id; "name" := VString name;
                        "description" := VString description ]}) ->
  fst (run (CreateItem event) w) = fulfilled resp ->
  fetch_json FrontEnd.apiBaseUrl
    {| Forms.method := "POST";
       Forms.headers := [("Content-Type", "application/json")];
       Forms.init_body := Some (VObject {[ "id" := VString id; "name" := VString name;
                                           "description" := VString description ]}) |}
  = fulfilled (body resp) ->
  run (CreateItem event) w
  = (fulfilled {| statusCode := 500; body := error_body "Could not create item" |}, w)
  /\ Forms.create_item_submit id name description fetch_json = fulfilled VUndefined.
Proof.
  intros Hb Hresp Hfetch.
  assert (run (CreateItem event) w
          = (fulfilled (respond 500 (error_body "Could not create item")), w)) as Hrun.
  { destruct (run_CreateItem event _ w Hb) as [-> _]; [discriminate .. |].
    destruct (available w) eqn:Ha.
    - rewrite DocumentClient_put by exact Ha.
      assert (key_of (VObject {[ "id" := VString id; "name" := VString name;
                                 "description" := VString description ]}) = None) as ->.
      { apply key_of_missing. left. lookup_literal. reflexivity. }
      reflexivity.
    - rewrite DocumentClient_unavailable by exact Ha. reflexivity. }
  split; [exact Hrun |].
  rewrite Hrun in Hresp. injection Hresp as <-.
  unfold Forms.create_item_submit. rewrite Hfetch. reflexivity.
Qed.

Lemma X11_create_form_never_creates_witness :
  run (CreateItem
         {| event_body := JSON_of (VObject {[ "id" := VString "42";
                                              "name" := VString "Widget";
                                              "description" := VString "A widget" ]});
            pathParameters := VNull |}) world0
  = (fulfilled {| statusCode := 500; body := error_body "Could not create item" |}, world0)
  /\ Forms.create_item_submit "42" "Widget" "A widget"
       (fun _ _ => fulfilled (error_body "Could not create item"))
     = fulfilled VUndefined.
Proof.
  apply (X11_create_form_never_creates "42" "Widget" "A widget" world0
           {| event_body := JSON_of (VObject {[ "id" := VString "42";
                                                "name" := VString "Widget";
                                                "description" := VString "A widget" ]});
              pathParameters := VNull |}
           {| statusCode := 500; body := error_body "Could not create item" |}
           (fun _ _ => fulfilled (error_body "Could not create item")));
    reflexivity.
Defined.

(** What UpdateItem answers on a table of well-formed items: an object in
    which [message] is not set. *)
Lemma UpdateItem_body_has_no_message (event : Event) (w : world) (resp : response) :
  table_ok (table w) ->
  fst (run (UpdateItem event) w) = fulfilled resp ->
  coercible (body resp) /\ Get (body resp) "message" = VUndefined.
Proof.
  intros _ Hresp.
  destruct (run_UpdateItem_refused event w) as [[e Hrun] | Hrun];
    rewrite Hrun in Hresp; [discriminate |].
  injection Hresp as <-. split; [split; discriminate | reflexivity].
Qed.

(** X12. The update form never shows a message: on a table the handlers
    have filled, no answer of UpdateItem has a [message] (it answers the
    attributes of the record, or an [error]), so the page, which shows
    [data.message], alerts [undefined] whether the update succeeded or
    not. *)
Theorem X12_update_form_alerts_undefined
    (h : list occasion) (w : world) (event : Event) (resp : response)
    (id name description : string)
    (fetch_json : string -> Forms.RequestInit -> settled value) :
  table w = replay h ∅ ->
  fst (run (UpdateItem event) w) = fulfilled resp ->
  fetch_json (FrontEnd.apiBaseUrl +:+ "/" +:+ id)
    {| Forms.method := "PUT";
       Forms.headers := [("Content-Type", "application/json")];
       Forms.init_body := Some (VObject {[ "name" := VString name;
                                           "description" := VString description ]}) |}
  = fulfilled (body resp) ->
  Forms.update_item_submit id name description fetch_json = fulfilled VUndefined.
Proof.
  intros Ht Hresp Hfetch.
  assert (table_ok (table w)) as Hok
    by (rewrite Ht; apply table_ok_replay, table_ok_empty).
  destruct (UpdateItem_body_has_no_message event w resp Hok Hresp) as [[H1 H2] Hmsg].
  unfold Forms.update_item_submit, Forms.alert_message. rewrite Hfetch.
  destruct (body resp); try congruence; rewrite Hmsg; reflexivity.
Qed.

Lemma X12_update_form_alerts_undefined_witness :
  Forms.update_item_submit "42" "Widget2" "Updated"
    (fun _ _ => fulfilled (error_body "Could not update item"))
  = fulfilled VUndefined.
Proof.
  apply (X12_update_form_alerts_undefined
           [ {| at_time := 1700000000000; service_up := true;
                what := invoke_CreateItem create42 |} ]
           world42 update42
           {| statusCode := 500; body := error_body "Could not update item" |}
           "42" "Widget2" "Updated");
    reflexivity.
Defined.

(** X13. The delete form against DeleteItem, for a non-empty id passed as
    the path parameter: when the backend answers, the record is gone and
    the page alerts "Item deleted successfully", whether or not there was a
    record; when it does not, the store is unchanged and the page alerts
    [undefined]. *)
Theorem X13_delete_form
    (w : world) (event : Event) (p : gmap string value) (resp : response) (id : string)
    (fetch_json : string -> Forms.RequestInit -> settled value) :
  id <> "" -> pathParameters event = VObject p -> p !! "ItemID" = Some (VString id) ->
  fst (run (DeleteItem event) w) = fulfilled resp ->
  fetch_json (FrontEnd.apiBaseUrl +:+ "/" +:+ id)
    {| Forms.method := "DELETE"; Forms.headers := []; Forms.init_body := None |}
  = fulfilled (body resp) ->
  Forms.delete_item_submit id fetch_json
  = fulfilled (if available w then VString "Item deleted successfully" else VUndefined)
  /\ table (snd (run (DeleteItem event) w))
     = (if available w then delete id (table w) else table w).
Proof.
  intros Hid Hp Hpi Hresp Hfetch.
  unfold Forms.delete_item_submit. rewrite Hfetch.
  destruct (available w) eqn:Ha.
  - rewrite (run_DeleteItem_key event p id w Hp Hpi Hid Ha) in *.
    injection Hresp as <-. split; reflexivity.
  - rewrite (run_DeleteItem event (VObject p) w Hp) in * by discriminate.
    rewrite DocumentClient_unavailable in * by exact Ha.
    injection Hresp as <-. split; reflexivity.
Qed.

Lemma X13_delete_form_witness :
  Forms.delete_item_submit "42" (fun _ _ => fulfilled (message "Item deleted successfully"))
  = fulfilled (if available world42 then VString "Item deleted successfully" else VUndefined)
  /\ table (snd (run (DeleteItem delete42) world42))
     = (if available world42 then delete "42" (table world42) else table world42).
Proof.
  apply (X13_delete_form world42 delete42 path42
           {| statusCode := 200; body := message "Item deleted successfully" |} "42"
           (fun _ _ => fulfilled (message "Item deleted successfully")));
    first [ reflexivity | discriminate ].
Defined.

(** X14. The client of the guide against CreateItem: it sends ItemID, Name
    and Description, so on a backend that answers the item 123 is stored
    with the three attributes sent and the client alerts "Item created
    successfully"; on one that does not, nothing is stored and the client
    alerts [undefined].  A fetch that fails is logged to the console. *)
Theorem X14_guide_client_creates
    (w : world) (event : Event) (resp : response)
    (fetch_json : string -> Forms.RequestInit -> settled value) :
  event_body event = JSON_of (VObject Guide.createItem_body) ->
  fst (run (CreateItem event) w) = fulfilled resp ->
  fetch_json "https://your-api-id.execute-api.us-east-1.amazonaws.com/dev/create"
    {| Forms.method := "POST";
       Forms.init_body := Some (VObject Guide.createItem_body);
       Forms.headers := [("Content-Type", "application/json")] |}
  = fulfilled (body resp) ->
  Guide.createItem fetch_json
  = Guide.alert (if available w then VString "Item created successfully" else VUndefined)
  /\ table (snd (run (CreateItem event) w)) !! "123"
     = (if available w
        then Some {[ "ItemID" := VString "123"; "Name" := VString "Sample Item";
                     "Description" := VString "This is a sample item";
                     "CreatedAt" := VString (Date.toISOString (clock w)) ]}
        else table w !! "123")
  /\ (forall e : error,
        Guide.createItem (fun _ _ => rejected e) = Guide.console_error "Error:" e).
Proof.
  intros Hb Hresp Hfetch.
  unfold Guide.createItem. rewrite Hfetch.
  split; [| split; [| reflexivity]].
  - destruct (available w) eqn:Ha.
    + rewrite (run_CreateItem_key event Guide.createItem_body "123" w Hb eq_refl
                 ltac:(discriminate) Ha) in Hresp.
      injection Hresp as <-. reflexivity.
    + destruct (run_CreateItem event _ w Hb) as [Hrun _]; [discriminate .. |].
      rewrite Hrun, DocumentClient_unavailable in Hresp by exact Ha.
      injection Hresp as <-. reflexivity.
  - destruct (available w) eqn:Ha.
    + rewrite (run_CreateItem_key event Guide.createItem_body "123" w Hb eq_refl
                 ltac:(discriminate) Ha).
      cbn [snd table set_table]. rewrite lookup_insert_eq. reflexivity.
    + destruct (run_CreateItem event _ w Hb) as [Hrun _]; [discriminate .. |].
      rewrite Hrun, DocumentClient_unavailable by exact Ha. reflexivity.
Qed.

Lemma X14_guide_client_creates_witness :
  Guide.createItem (fun _ _ => fulfilled (message "Item created successfully"))
  = Guide.alert (if available world0 then VString "Item created successfully" else VUndefined)
  /\ table (snd (run (CreateItem {| event_body := JSON_of (VObject Guide.createItem_body);
                                    pathParameters := VNull |}) world0)) !! "123"
     = (if available world0
        then Some {[ "ItemID" := VString "123"; "Name" := VString "Sample Item";
                     "Description" := VString "This is a sample item";
                     "CreatedAt" := VString (Date.toISOString (clock world0)) ]}
        else table world0 !! "123")
  /\ (forall e : error,
        Guide.createItem (fun _ _ => rejected e) = Guide.console_error "Error:" e).
Proof.
  apply (X14_guide_client_creates world0
           {| event_body := JSON_of (VObject Guide.createItem_body); pathParameters := VNull |}
           {| statusCode := 201; body := message "Item created successfully" |}
           (fun _ _ => fulfilled (message "Item created successfully")));
    reflexivity.
Defined.

(** X15. Only CreateItem writes CreatedAt and ItemID: across an invocation
    of any other handler, a record that is stored before and after has the
    CreatedAt and the ItemID it had. *)
Theorem X15_only_create_sets_createdAt
    (i : invocation) (w : world) (k : string) (item item' : gmap string value) :
  (forall event : Event, i <> invoke_CreateItem event) ->
  table w !! k = Some item ->
  table (snd (run (handler i) w)) !! k = Some item' ->
  item' !! "CreatedAt" = item !! "CreatedAt" /\ item' !! "ItemID" = item !! "ItemID".
Proof.
  intros Hi Hitem Hitem'.
  pose proof (handler_run i w) as H.
  destruct (call_issued i (clock w)) as [r |] eqn:Hr.
  2:{ destruct H as [[e Hrun] _]. rewrite Hrun in Hitem'. cbn [snd] in Hitem'.
      split; congruence. }
  destruct H as [_ Hrun]. rewrite Hrun in Hitem'. cbn [snd] in Hitem'. clear Hrun.
  destruct (available w) eqn:Ha.
  2:{ rewrite DocumentClient_unavailable in Hitem' by exact Ha. cbn [snd] in Hitem'.
      split; congruence. }
  destruct i as [event | event | event | event]; cbn [call_issued] in Hr.
  - destruct (Hi event eq_refl).
  - destruct (is_coercible (pathParameters event)); [| discriminate]. injection Hr as <-.
    rewrite get_changes_nothing in Hitem'. split; congruence.
  - destruct (event_body event) as [| b]; [discriminate |].
    destruct (is_coercible (pathParameters event) && is_coercible b); [| discriminate].
    injection Hr as <-. rewrite DocumentClient_update in Hitem' by exact Ha.
    cbn [snd] in Hitem'. split; congruence.
  - destruct (is_coercible (pathParameters event)); [| discriminate]. injection Hr as <-.
    rewrite DocumentClient_delete in Hitem' by exact Ha.
    destruct (key_of (pathParameters event)) as [k' |];
      [| cbn [snd] in Hitem'; split; congruence].
    cbn [snd table set_table] in Hitem'.
    destruct (decide (k' = k)) as [-> | Hne].
    + rewrite lookup_delete_eq in Hitem'. discriminate.
    + rewrite lookup_delete_ne in Hitem' by exact Hne. split; congruence.
Qed.

Lemma X15_only_create_sets_createdAt_witness :
  marshal (created_Item (VObject Gadget) (clock world42)) !! "CreatedAt"
  = marshal (created_Item (VObject Gadget) (clock world42)) !! "CreatedAt"
  /\ marshal (created_Item (VObject Gadget) (clock world42)) !! "ItemID"
     = marshal (created_Item (VObject Gadget) (clock world42)) !! "ItemID".
Proof.
  apply (X15_only_create_sets_createdAt (invoke_DeleteItem delete42) world42_43 "43"
           (marshal (created_Item (VObject Gadget) (clock world42)))
           (marshal (created_Item (VObject Gadget) (clock world42))));
    first [ reflexivity | discriminate ].
Defined.
